(** * Signal-generation pipeline and model catalog of ai-hedge-fund

    A shallow embedding of

    - [src/agents/example_agent.py]: the two rubric scorers
      ([analyze_core_metrics], [perform_advanced_analysis]), the aggregator
      ([calculate_comprehensive_score]), the classifier ([generate_signal])
      and the LLM review step ([validate_with_llm]);
    - [app/backend/routes/language_models.py]: the credential filter of the
      model catalog ([get_language_models]).

    Python [float]s are the kernel's binary64 floats, so that NaN, signed
    zeros and rounding behave as they do in the program; Python [int]s are
    [Z]; [dict]s whose order is irrelevant are [gmap]s, the others are
    association lists; a call that may raise returns an [outcome]. *)

From Stdlib Require Import ZArith QArith Qabs Floats String Ascii List Bool Lia.
From stdpp Require Import base option gmap strings list fin_maps pretty.

Set Warnings "-inexact-float,-register-all".

Local Open Scope Z_scope.
Local Open Scope string_scope.

(** ** Python floats *)

Module PyFloat.

(** [x > y], [x >= y], [x < y] of Python on two floats: the IEEE
    comparisons, all false when an operand is NaN. *)
Definition gt (x y : float) : bool := PrimFloat.ltb y x.
Definition ge (x y : float) : bool := PrimFloat.leb y x.
Definition lt (x y : float) : bool := PrimFloat.ltb x y.
Definition le (x y : float) : bool := PrimFloat.leb x y.

(** [bool(x)]: a float is falsy exactly when it compares equal to zero
    (so [0.0] and [-0.0] are falsy and NaN is truthy). *)
Definition truthy (x : float) : bool := negb (PrimFloat.eqb x 0%float).

(** Not NaN. *)
Definition comparable (x : float) : Prop := Prim2SF x <> S754_nan.

(** The rational a finite float stands for. *)
Definition exact (x : float) : option Q :=
  match Prim2SF x with
  | S754_zero _ => Some 0%Q
  | S754_finite s m e =>
      Some ((if s then - (Z.pos m # 1) else (Z.pos m # 1)) * Qpower 2 e)%Q
  | _ => None
  end.

(** [float(n)] for a Python int: the nearest binary64 value, ties to even.
    Exact for [|n| <= 2^53]. *)
Definition of_int (n : Z) : float :=
  SF2Prim (binary_normalize prec emax n 0 false).

(** [a / b] on two Python ints with [b <> 0]. CPython divides the two
    converted operands when both fit a double exactly (magnitude at most
    [2^53]), which is the case of every score of this program. *)
Definition int_truediv (a b : Z) : float :=
  PrimFloat.div (of_int a) (of_int b).

(** [format(x, ".1f")]: one digit after the point, the exact binary value
    rounded half to even; the sign is kept on a result that rounds to
    zero. [round_tenths m e] is [m * 2^e] in tenths, rounded. *)
Definition round_tenths (m : positive) (e : Z) : Z :=
  let n := 10 * Z.pos m in
  if (0 <=? e)%Z then n * 2 ^ e
  else
    let d := 2 ^ (- e) in
    let q := n / d in
    match (2 * (n mod d) ?= d)%Z with
    | Lt => q
    | Eq => if Z.even q then q else q + 1
    | Gt => q + 1
    end.

Definition tenths_to_string (t : Z) : string :=
  pretty (t / 10) ++ "." ++ pretty (t mod 10).

Definition format_1f (x : float) : string :=
  match Prim2SF x with
  | S754_nan => "nan"
  | S754_infinity s => if s then "-inf" else "inf"
  | S754_zero s => if s then "-0.0" else "0.0"
  | S754_finite s m e =>
      (if s then "-" else "") ++ tenths_to_string (round_tenths m e)
  end.

End PyFloat.

(** ** Exceptions and Python values *)

Module Py.

(** What a [raise] carries. [except Exception] catches the classes under
    [Exception]; [KeyboardInterrupt], [SystemExit] and the like sit under
    [BaseException] only. [HTTPException] is FastAPI's, an [Exception]. *)
Inductive exn :=
  | Error (message : string)
  | BaseOnly (message : string)
  | HTTPException (status_code : Z) (detail : string).

Definition is_Exception (e : exn) : bool :=
  match e with
  | Error _ | HTTPException _ _ => true
  | BaseOnly _ => false
  end.

(** [str(e)] *)
Definition str (e : exn) : string :=
  match e with
  | Error m | BaseOnly m => m
  | HTTPException c d => pretty c ++ ": " ++ d
  end.

Inductive outcome (A : Type) :=
  | Returns (a : A)
  | Raises (e : exn).
Arguments Returns {A} a.
Arguments Raises {A} e.

(** Statements in sequence: the first [raise] ends the block. *)
#[export] Instance outcome_bind : MBind outcome := fun A B k c =>
  match c with
  | Returns a => k a
  | Raises e => Raises e
  end.

(** [try: body / except Exception as e: handler(e)] *)
Definition try_except {A : Type} (body : outcome A) (handler : exn -> outcome A)
    : outcome A :=
  match body with
  | Returns a => Returns a
  | Raises e => if is_Exception e then handler e else Raises e
  end.

(** The values that travel as JSON: what [json.loads] builds and what the
    agent stores per ticker. A [dict] keeps its insertion order. *)
Inductive value :=
  | VNone
  | VBool (b : bool)
  | VInt (n : Z)
  | VFloat (x : float)
  | VStr (s : string)
  | VList (items : list value)
  | VDict (entries : list (string * value)).

(** [d[key] = v] on a dict: overwrite in place, or append. *)
Fixpoint dict_set (key : string) (v : value) (d : list (string * value))
    : list (string * value) :=
  match d with
  | [] => [(key, v)]
  | (k, w) :: rest =>
      if String.eqb k key then (k, v) :: rest
      else (k, w) :: dict_set key v rest
  end.

Fixpoint dict_get (key : string) (d : list (string * value)) : option value :=
  match d with
  | [] => None
  | (k, w) :: rest => if String.eqb k key then Some w else dict_get key rest
  end.

End Py.

(** ** The rubric scorers *)

Module ExampleAgent.
Import Py.

(** The fields of a [FinancialMetrics] snapshot the rubric reads; each is
    [float | None]. *)
Record FinancialMetrics := {
  return_on_equity : option float;
  debt_to_equity : option float;
  revenue_growth : option float;
  earnings_growth : option float;
}.

(** The dictionary a scorer returns:
    [{"score": .., "max_score": .., "reasoning": {..}}]. *)
Record analysis := {
  score : Z;
  max_score : Z;
  reasoning : gmap string string;
}.

(** The three locals at the start of a scorer. *)
Definition analysis_init : analysis :=
  {| score := 0; max_score := 0; reasoning := ∅ |}.

(** [score += n; reasoning[key] = text] *)
Definition award (n : Z) (key text : string) (a : analysis) : analysis :=
  {| score := score a + n;
     max_score := max_score a;
     reasoning := <[key := text]> (reasoning a) |}.

(** [reasoning[key] = text] *)
Definition remark (key text : string) (a : analysis) : analysis :=
  {| score := score a;
     max_score := max_score a;
     reasoning := <[key := text]> (reasoning a) |}.

(** [max_score += n] *)
Definition raise_max (n : Z) (a : analysis) : analysis :=
  {| score := score a;
     max_score := max_score a + n;
     reasoning := reasoning a |}.

(** [if field: body]: [None] and a zero float are falsy. *)
Definition when_truthy (field : option float)
    (body : float -> analysis -> analysis) (a : analysis) : analysis :=
  match field with
  | Some x => if PyFloat.truthy x then body x a else a
  | None => a
  end.

(** The ROE block of [analyze_core_metrics]. *)
Definition roe_block (roe : float) (a : analysis) : analysis :=
  let a :=
    if PyFloat.gt roe 0.15 then award 3 "roe" "우수한 ROE (15% 이상)" a
    else if PyFloat.gt roe 0.10 then award 2 "roe" "양호한 ROE (10-15%)" a
    else if PyFloat.gt roe 0.05 then award 1 "roe" "보통 ROE (5-10%)" a
    else remark "roe" "낮은 ROE (5% 미만)" a in
  raise_max 3 a.

(** The debt-ratio block of [analyze_core_metrics]. *)
Definition debt_block (de : float) (a : analysis) : analysis :=
  let a :=
    if PyFloat.lt de 0.3 then award 2 "debt" "보수적 부채비율 (30% 미만)" a
    else if PyFloat.lt de 0.5 then award 1 "debt" "적정 부채비율 (30-50%)" a
    else remark "debt" "높은 부채비율 (50% 이상)" a in
  raise_max 2 a.

(** [analyze_core_metrics(metrics, line_items)]. [metrics] is a list of
    snapshots, most recent first, or [None]; [line_items] is not read. *)
Definition analyze_core_metrics {L : Type}
    (metrics : option (list FinancialMetrics)) (line_items : L) : analysis :=
  let a := analysis_init in
  match metrics with
  | Some (latest :: _) =>
      let a := when_truthy (return_on_equity latest) roe_block a in
      let a := when_truthy (debt_to_equity latest) debt_block a in
      a
  | _ => a
  end.

(** The revenue-growth block of [perform_advanced_analysis]. *)
Definition revenue_block (g : float) (a : analysis) : analysis :=
  let a :=
    if PyFloat.gt g 0.20 then
      award 3 "revenue_growth" "높은 매출 성장 (20% 이상)" a
    else if PyFloat.gt g 0.10 then
      award 2 "revenue_growth" "양호한 매출 성장 (10-20%)" a
    else if PyFloat.gt g 0.05 then
      award 1 "revenue_growth" "보통 매출 성장 (5-10%)" a
    else remark "revenue_growth" "낮은 매출 성장 (5% 미만)" a in
  raise_max 3 a.

(** The earnings-growth block of [perform_advanced_analysis]. *)
Definition earnings_block (g : float) (a : analysis) : analysis :=
  let a :=
    if PyFloat.gt g 0.25 then
      award 2 "earnings_growth" "높은 이익 성장 (25% 이상)" a
    else if PyFloat.gt g 0.15 then
      award 1 "earnings_growth" "양호한 이익 성장 (15-25%)" a
    else remark "earnings_growth" "보통 이익 성장 (15% 미만)" a in
  raise_max 2 a.

(** [perform_advanced_analysis(metrics, line_items)]: needs
    [len(metrics) > 1]; [previous = metrics[1]] is bound and never read. *)
Definition perform_advanced_analysis {L : Type}
    (metrics : option (list FinancialMetrics)) (line_items : L) : analysis :=
  let a := analysis_init in
  match metrics with
  | Some (current :: previous :: _) =>
      let a := when_truthy (revenue_growth current) revenue_block a in
      let a := when_truthy (earnings_growth current) earnings_block a in
      a
  | _ => a
  end.

(** [calculate_comprehensive_score(core_analysis, advanced_analysis)].
    The guard returns the int [0], which is the float [0] here. *)
Definition calculate_comprehensive_score (core_analysis advanced_analysis : analysis)
    : float :=
  let total_score := score core_analysis + score advanced_analysis in
  let max_possible_score :=
    max_score core_analysis + max_score advanced_analysis in
  if (max_possible_score =? 0)%Z then 0%float
  else (PyFloat.int_truediv total_score max_possible_score * 100)%float.

(** [generate_signal(comprehensive_score, market_cap)] returns the tuple
    [(signal, confidence, reasoning)]. [get_market_cap] gives a float or
    [None]. The int [50] of the neutral branch is the float [50] here. *)
Definition generate_signal (comprehensive_score : float)
    (market_cap : option float) : string * float * string :=
  let shown := PyFloat.format_1f comprehensive_score in
  if PyFloat.ge comprehensive_score 80 then
    ("bullish", comprehensive_score,
     "종합 점수 " ++ shown ++ "%로 매우 우수한 투자 대상")
  else if PyFloat.ge comprehensive_score 60 then
    ("bullish", comprehensive_score,
     "종합 점수 " ++ shown ++ "%로 양호한 투자 대상")
  else if PyFloat.ge comprehensive_score 40 then
    ("neutral", 50%float,
     "종합 점수 " ++ shown ++ "%로 중립적인 투자 대상")
  else
    ("bearish", (100 - comprehensive_score)%float,
     "종합 점수 " ++ shown ++ "%로 투자에 주의가 필요한 대상").

Definition signal_of (r : string * float * string) : string := r.1.1.
Definition confidence_of (r : string * float * string) : float := r.1.2.
Definition reasoning_of (r : string * float * string) : string := r.2.

(** The body of the ticker loop of [example_agent] from step 2 on: the
    dictionary stored under [example_signals[ticker]]. *)
Definition ticker_entry {L : Type} (metrics : option (list FinancialMetrics))
    (line_items : L) (market_cap : option float) : value :=
  let core_analysis := analyze_core_metrics metrics line_items in
  let advanced_analysis := perform_advanced_analysis metrics line_items in
  let comprehensive_score :=
    calculate_comprehensive_score core_analysis advanced_analysis in
  let '(signal, confidence, reasoning) :=
    generate_signal comprehensive_score market_cap in
  VDict [("signal", VStr signal);
         ("confidence", VFloat confidence);
         ("reasoning", VStr reasoning);
         ("analysis_details",
          VDict [("core_score", VInt (score core_analysis));
                 ("advanced_score", VInt (score advanced_analysis));
                 ("comprehensive_score", VFloat comprehensive_score)])].

(** ** The review step *)

Section Review.

(** [state] and the two collaborators: [call_llm] of [src.utils.llm],
    which receives the dumped signals, the state and the agent id, and
    [json.loads]. Either may raise. *)
Context {State : Type}.
Variable call_llm : value -> State -> string -> outcome value.
Variable json_loads : value -> outcome value.

(** [validate_with_llm(signals, state, agent_id)]. The prompt is a constant
    template built before the [try]; [call_llm] gets the signals through
    [json.dumps], which accepts every [value]. *)
Definition validate_with_llm (signals : value) (state : State)
    (agent_id : string) : outcome value :=
  try_except
    (result ← call_llm signals state agent_id ;
     parsed_result ← json_loads result ;
     Returns parsed_result)
    (fun e => Returns signals).

(** The data collaborators of [src.tools.api], per ticker; the end date and
    the API key are fixed for a run. A raise of theirs is not caught. *)
Context {L : Type}.
Variable get_financial_metrics : string -> outcome (option (list FinancialMetrics)).
Variable search_line_items : string -> outcome L.
Variable get_market_cap : string -> outcome (option float).

(** The ticker loop of [example_agent], filling [example_signals]. *)
Fixpoint ticker_loop (tickers : list string) (example_signals : list (string * value))
    : outcome (list (string * value)) :=
  match tickers with
  | [] => Returns example_signals
  | ticker :: rest =>
      metrics ← get_financial_metrics ticker ;
      line_items ← search_line_items ticker ;
      market_cap ← get_market_cap ticker ;
      ticker_loop rest
        (dict_set ticker (ticker_entry metrics line_items market_cap)
           example_signals)
  end.

(** [example_agent(state, agent_id)], up to [final_signals], the content of
    the message it appends. *)
Definition example_agent (tickers : list string) (state : State)
    (agent_id : string) : outcome value :=
  example_signals ← ticker_loop tickers [] ;
  validate_with_llm (VDict example_signals) state agent_id.

End Review.

(** The answer shape the prompt asks for and [ExampleAgentSignal] declares:
    [signal] one of the three literals, [confidence] a number, [reasoning]
    a string, and no other key. *)
Definition is_signal_literal (v : value) : bool :=
  match v with
  | VStr s =>
      String.eqb s "bullish" || String.eqb s "bearish" || String.eqb s "neutral"
  | _ => false
  end.

Definition is_number (v : value) : bool :=
  match v with
  | VInt _ | VFloat _ => true
  | _ => false
  end.

Definition is_str (v : value) : bool :=
  match v with
  | VStr _ => true
  | _ => false
  end.

Definition is_ExampleAgentSignal (v : value) : bool :=
  match v with
  | VDict d =>
      (length d =? 3)%nat
      && from_option is_signal_literal false (dict_get "signal" d)
      && from_option is_number false (dict_get "confidence" d)
      && from_option is_str false (dict_get "reasoning" d)
  | _ => false
  end.

(** A mapping from ticker to such an object. *)
Definition has_expected_shape (v : value) : bool :=
  match v with
  | VDict d => forallb (fun kv => is_ExampleAgentSignal kv.2) d
  | _ => false
  end.

(** *** Sample runs of the review step *)

(** The signals of one ticker, as the agent stores them. *)
Definition sample_signals : value :=
  VDict [("AAPL",
          ticker_entry
            (Some [ {| return_on_equity := Some 0.18%float;
                       debt_to_equity := Some 0.25%float;
                       revenue_growth := None;
                       earnings_growth := None |} ])
            tt (Some 3e12%float))].

(** A reviewer that cannot be reached. *)
Definition llm_down (analysis_data : value) (state : unit) (agent_id : string)
    : outcome value :=
  Raises (Error "connection refused").

(** A reviewer that answers with the text [[]]. *)
Definition llm_says_empty_list (analysis_data : value) (state : unit)
    (agent_id : string) : outcome value :=
  Returns (VStr "[]").

(** [json.loads] on the one text used below: ["[]"] is the empty list;
    anything else is refused here. *)
Definition loads_empty_list (text : value) : outcome value :=
  match text with
  | VStr "[]" => Returns (VList [])
  | _ => Raises (Error "JSONDecodeError")
  end.

(** *** Vocabulary of the properties *)

(** Whether [if field:] runs its block. *)
Definition present (field : option float) : bool :=
  from_option PyFloat.truthy false field.

(** What a field of weight [w] adds to [max_score], and the key it writes. *)
Definition weight_if (field : option float) (w : Z) : Z :=
  if present field then w else 0.

Definition key_if (field : option float) (key : string) : gset string :=
  if present field then {[key]} else ∅.

(** A snapshot with one field taken away. *)
Definition without_return_on_equity (m : FinancialMetrics) : FinancialMetrics :=
  {| return_on_equity := None;
     debt_to_equity := debt_to_equity m;
     revenue_growth := revenue_growth m;
     earnings_growth := earnings_growth m |}.

Definition without_debt_to_equity (m : FinancialMetrics) : FinancialMetrics :=
  {| return_on_equity := return_on_equity m;
     debt_to_equity := None;
     revenue_growth := revenue_growth m;
     earnings_growth := earnings_growth m |}.

Definition without_revenue_growth (m : FinancialMetrics) : FinancialMetrics :=
  {| return_on_equity := return_on_equity m;
     debt_to_equity := debt_to_equity m;
     revenue_growth := None;
     earnings_growth := earnings_growth m |}.

Definition without_earnings_growth (m : FinancialMetrics) : FinancialMetrics :=
  {| return_on_equity := return_on_equity m;
     debt_to_equity := debt_to_equity m;
     revenue_growth := revenue_growth m;
     earnings_growth := None |}.

(** [len(metrics)], with [0] for [None]. *)
Definition snapshot_count (metrics : option (list FinancialMetrics)) : nat :=
  from_option length 0%nat metrics.

(** The four score ranges of the classifier table:
    [>= 80], [[60, 80)], [[40, 60)], [< 40]. *)
Definition tiers (x : float) : list bool :=
  [PyFloat.ge x 80;
   PyFloat.ge x 60 && PyFloat.lt x 80;
   PyFloat.ge x 40 && PyFloat.lt x 60;
   PyFloat.lt x 40].

Definition count_true (l : list bool) : nat :=
  length (List.filter (fun b : bool => b) l).

(** The comprehensive score of two breakdowns whose scores add up to [s]
    and whose maxima add up to [m]. *)
Definition score_of_totals (s m : Z) : float :=
  calculate_comprehensive_score
    {| score := s; max_score := m; reasoning := ∅ |} analysis_init.

(** The score is a float of [[0, 100]]. *)
Definition in_percent_range (x : float) : bool :=
  PyFloat.le 0 x && PyFloat.le x 100.

(** The score is within [2^-46], the spacing of the floats between 64 and
    128, of the exact percentage [100 * s / m]. *)
Definition near_percentage (s m : Z) (x : float) : bool :=
  match PyFloat.exact x with
  | Some q => Qle_bool (Qabs (q - (100 * s # 1) / (m # 1)) * Qpower 2 46) 1
  | None => false
  end.

(** A check on every pair [0 <= s <= m], [1 <= m <= 10]: the totals the two
    scorers can reach. *)
Definition on_reachable_totals (check : Z -> Z -> bool) : bool :=
  forallb (fun m => forallb (fun s => check s m) (seqZ 0 (m + 1))) (seqZ 1 10).

(** *** Vocabulary of the further properties *)

(** The points one field earns on its own: the score its block leaves on
    the initial locals. *)
Definition field_points (field : option float)
    (block : float -> analysis -> analysis) : Z :=
  score (when_truthy field block analysis_init).

(** Steps 2 and 3 of the ticker loop: the tuple [generate_signal] returns
    for the fetched data. *)
Definition deterministic_signal {L : Type}
    (metrics : option (list FinancialMetrics)) (line_items : L)
    (market_cap : option float) : string * float * string :=
  generate_signal
    (calculate_comprehensive_score
       (analyze_core_metrics metrics line_items)
       (perform_advanced_analysis metrics line_items))
    market_cap.

(** Bearish below neutral below bullish. *)
Definition signal_rank (signal : string) : Z :=
  if String.eqb signal "bullish" then 2
  else if String.eqb signal "neutral" then 1
  else 0.

(** The signal the exact percentage [100 * s / m] falls under, in integer
    arithmetic; no maximum means a score of 0. *)
Definition exact_signal (s m : Z) : string :=
  if (m =? 0)%Z then "bearish"
  else if (60 * m <=? 100 * s)%Z then "bullish"
  else if (40 * m <=? 100 * s)%Z then "neutral"
  else "bearish".

(** The keys of a dict, in order. *)
Definition dict_keys (d : list (string * value)) : list string := d.*1.

(** Data collaborators for sample runs: two snapshots for every ticker, and
    a provider that is down for the ticker ["FAIL"]. *)
Definition sample_snapshots : list FinancialMetrics :=
  [ {| return_on_equity := Some 0.12%float;
       debt_to_equity := Some 0.4%float;
       revenue_growth := Some 0.3%float;
       earnings_growth := None |};
    {| return_on_equity := Some 0.1%float;
       debt_to_equity := None;
       revenue_growth := None;
       earnings_growth := None |} ].

Definition sample_get_financial_metrics (ticker : string)
    : outcome (option (list FinancialMetrics)) :=
  if String.eqb ticker "FAIL" then Raises (Error "HTTP 502")
  else Returns (Some sample_snapshots).

Definition sample_search_line_items (ticker : string) : outcome unit :=
  Returns tt.

Definition sample_get_market_cap (ticker : string) : outcome (option float) :=
  Returns (Some 3e12%float).

(** What the loop stores for a ticker whose data the three collaborators
    return. *)
Definition fetched {L : Type}
    (get_financial_metrics : string -> outcome (option (list FinancialMetrics)))
    (search_line_items : string -> outcome L)
    (get_market_cap : string -> outcome (option float))
    (ticker : string) (entry : value) : Prop :=
  exists metrics line_items market_cap,
    get_financial_metrics ticker = Returns metrics
    /\ search_line_items ticker = Returns line_items
    /\ get_market_cap ticker = Returns market_cap
    /\ entry = ticker_entry metrics line_items market_cap.


End ExampleAgent.

(** ** The model catalog *)

Module LanguageModels.
Import Py.

(** [PROVIDER_TO_API_KEY] *)
Definition PROVIDER_TO_API_KEY : gmap string string :=
  list_to_map
    [("OpenAI", "OPENAI_API_KEY");
     ("Anthropic", "ANTHROPIC_API_KEY");
     ("Google", "GOOGLE_API_KEY");
     ("Groq", "GROQ_API_KEY");
     ("xAI", "XAI_API_KEY");
     ("DeepSeek", "DEEPSEEK_API_KEY");
     ("GigaChat", "GIGACHAT_API_KEY");
     ("OpenRouter", "OPENROUTER_API_KEY");
     ("Azure OpenAI", "AZURE_OPENAI_API_KEY")].

(** A row of the key repository; the route reads [key.provider]. *)
Record ApiKey := { provider : string; is_active : bool }.

(** The response body [{"models": [...]}]. A model is a dict of strings
    ([provider], [display_name], [model_name]). *)
Record response := { models : list (gmap string string) }.

(** [{key.provider for key in api_keys}] *)
Definition providers_of (api_keys : list ApiKey) : gset string :=
  list_to_set (provider <$> api_keys).

(** The test of the loop body:
    [api_key_name and api_key_name in available_providers], with
    [provider = model.get("provider", "")] and
    [api_key_name = PROVIDER_TO_API_KEY.get(provider)]. A string is truthy
    when it is not empty. *)
Definition has_api_key (available_providers : gset string)
    (model : gmap string string) : bool :=
  let provider := default "" (model !! "provider") in
  match PROVIDER_TO_API_KEY !! provider with
  | Some api_key_name =>
      negb (String.eqb api_key_name "")
      && bool_decide (api_key_name ∈ available_providers)
  | None => false
  end.

(** The loop: [filtered_models.append(model)] for each model that passes. *)
Definition filter_cloud_models (available_providers : gset string)
    (all_models : list (gmap string string)) : list (gmap string string) :=
  fold_left
    (fun filtered_models model =>
       if has_api_key available_providers model
       then (filtered_models ++ [model])%list
       else filtered_models)
    all_models [].

(** [get_language_models], given what its three collaborators do when
    called: [ApiKeyRepository.get_all_api_keys(include_inactive=False)],
    [get_models_list()] and [ollama_service.get_available_models()]. *)
Definition get_language_models
    (get_all_api_keys : outcome (list ApiKey))
    (get_models_list : outcome (list (gmap string string)))
    (get_available_models : outcome (list (gmap string string)))
    : outcome response :=
  try_except
    (api_keys ← get_all_api_keys ;
     let available_providers := providers_of api_keys in
     all_models ← get_models_list ;
     let filtered_models := filter_cloud_models available_providers all_models in
     ollama_models ← get_available_models ;
     let filtered_models := (filtered_models ++ ollama_models)%list in
     Returns {| models := filtered_models |})
    (fun e =>
       Raises (HTTPException 500 ("Failed to retrieve models: " ++ str e))).

(** *** Vocabulary of the properties *)

(** [model.get("provider", "")] *)
Definition provider_of (model : gmap string string) : string :=
  default "" (model !! "provider").

(** The provider of the model maps, through the table, to a credential of
    the set. *)
Definition credentialed (available_providers : gset string)
    (model : gmap string string) : Prop :=
  match PROVIDER_TO_API_KEY !! provider_of model with
  | Some api_key_name => api_key_name ∈ available_providers
  | None => False
  end.

#[export] Instance credentialed_dec available_providers model :
  Decision (credentialed available_providers model).
Proof.
  unfold credentialed.
  destruct (PROVIDER_TO_API_KEY !! provider_of model); apply _.
Defined.

(** A catalog of two cloud models, one local model, and one stored key. *)
Definition sample_catalog : list (gmap string string) :=
  [ {[ "provider" := "OpenAI"; "display_name" := "GPT-4o";
       "model_name" := "gpt-4o" ]};
    {[ "provider" := "Groq"; "display_name" := "Llama 3";
       "model_name" := "llama3-70b" ]} ].

Definition sample_local : list (gmap string string) :=
  [ {[ "provider" := "Ollama"; "display_name" := "Gemma";
       "model_name" := "gemma3:4b" ]} ].

Definition sample_keys : list ApiKey :=
  [ {| provider := "OPENAI_API_KEY"; is_active := true |} ].

(** *** The providers route *)

(** One value of the [providers] dict:
    [{"name": provider_name, "models": [...]}]. *)
Record provider_group := {
  name : string;
  group_models : list (gmap string string);
}.

(** [d[key]] on a dict: a missing key raises [KeyError(key)], whose [str] is
    the key between quotes. *)
Definition getitem (key : string) (d : gmap string string) : outcome string :=
  match d !! key with
  | Some v => Returns v
  | None => Raises (Error ("'" ++ key ++ "'"))
  end.

(** [provider_name not in providers], negated. *)
Definition has_group (provider_name : string) (providers : list provider_group)
    : bool :=
  existsb (fun g => String.eqb (name g) provider_name) providers.

(** [providers[provider_name]["models"].append(entry)] *)
Fixpoint append_model (provider_name : string) (entry : gmap string string)
    (providers : list provider_group) : list provider_group :=
  match providers with
  | [] => []
  | g :: rest =>
      if String.eqb (name g) provider_name then
        {| name := name g; group_models := (group_models g ++ [entry])%list |}
        :: rest
      else g :: append_model provider_name entry rest
  end.

(** The body of the grouping loop. [providers] is the dict keyed by
    provider name, kept as the list of its values in insertion order. *)
Definition group_step (providers : list provider_group)
    (model : gmap string string) : outcome (list provider_group) :=
  provider_name ← getitem "provider" model ;
  let providers :=
    if has_group provider_name providers then providers
    else (providers ++ [ {| name := provider_name; group_models := [] |} ])%list in
  display_name ← getitem "display_name" model ;
  model_name ← getitem "model_name" model ;
  Returns
    (append_model provider_name
       {[ "display_name" := display_name; "model_name" := model_name ]}
       providers).

Fixpoint group_loop (all_models : list (gmap string string))
    (providers : list provider_group) : outcome (list provider_group) :=
  match all_models with
  | [] => Returns providers
  | model :: rest =>
      providers ← group_step providers model ;
      group_loop rest providers
  end.

(** [get_language_model_providers], given what [get_models_list()] does;
    the body [{"providers": list(providers.values())}] is the list. *)
Definition get_language_model_providers
    (get_models_list : outcome (list (gmap string string)))
    : outcome (list provider_group) :=
  try_except
    (all_models ← get_models_list ;
     providers ← group_loop all_models [] ;
     Returns providers)
    (fun e =>
       Raises (HTTPException 500 ("Failed to retrieve providers: " ++ str e))).

(** *** Vocabulary of the further properties *)

(** A model carries the three keys the providers route reads. *)
Definition well_formed (model : gmap string string) : Prop :=
  is_Some (model !! "provider")
  /\ is_Some (model !! "display_name")
  /\ is_Some (model !! "model_name").

(** The dict the providers route lists for a model. *)
Definition listed_entry (model : gmap string string) : gmap string string :=
  {[ "display_name" := default "" (model !! "display_name");
     "model_name" := default "" (model !! "model_name") ]}.

(** The models of one provider, in catalog order, as listed. *)
Definition models_of (provider_name : string)
    (all_models : list (gmap string string)) : list (gmap string string) :=
  listed_entry
    <$> filter (fun model => model !! "provider" = Some provider_name) all_models.

(** [providers] groups the models [seen]: one group per provider that
    occurs, holding the models of that provider in order. *)
Definition groups_of (seen : list (gmap string string))
    (providers : list provider_group) : Prop :=
  NoDup (name <$> providers)
  /\ (forall p, p ∈ name <$> providers
               <-> exists m, m ∈ seen /\ m !! "provider" = Some p)
  /\ (forall g, g ∈ providers -> group_models g = models_of (name g) seen).

(** A catalog entry that lacks a key, and a stored key of another service. *)
Definition sample_broken_catalog : list (gmap string string) :=
  [ {[ "provider" := "OpenAI"; "display_name" := "GPT-4o";
       "model_name" := "gpt-4o" ]};
    {[ "provider" := "Groq"; "model_name" := "llama3-70b" ]} ].

Definition sample_other_keys : list ApiKey :=
  [ {| provider := "FINANCIAL_DATASETS_API_KEY"; is_active := true |} ].

End LanguageModels.

(** * Properties *)

(** ** Order and product of binary64 floats *)

Module PyFloatFacts.
Import PyFloat.

Lemma SFcompare_swap x y : SFcompare y x = CompOpp <$> SFcompare x y.
Proof.
  destruct x as [[]|[]| |[] mx ex], y as [[]|[]| |[] my ey]; simpl; try reflexivity.
  all: rewrite (Z.compare_antisym ex ey); destruct (ex ?= ey)%Z; simpl; try reflexivity.
  all: change (Pos.compare_cont Eq ?a ?b) with (Pos.compare a b).
  all: rewrite (Pos.compare_antisym mx my); destruct (mx ?= my)%positive; reflexivity.
Qed.

Lemma SFleb_trans x y z : SFleb x y = true -> SFleb y z = true -> SFleb x z = true.
Proof.
  unfold SFleb.
  destruct x as [[]|[]| |[] mx ex], y as [[]|[]| |[] my ey], z as [[]|[]| |[] mz ez];
    simpl; try congruence.
  all: change (Pos.compare_cont Eq ?a ?b) with (Pos.compare a b).
  all: destruct (Z.compare_spec ex ey), (Z.compare_spec ey ez), (Z.compare_spec ex ez);
    try congruence; try lia.
  all: subst; destruct (Pos.compare_spec mx my), (Pos.compare_spec my mz),
    (Pos.compare_spec mx mz); simpl; try congruence; try lia.
Qed.

Lemma SFmul_comm x y : SFmul prec emax x y = SFmul prec emax y x.
Proof.
  destruct x as [[]|[]| |[] mx ex], y as [[]|[]| |[] my ey]; simpl; try reflexivity.
  all: rewrite (Pos.mul_comm mx my), (Z.add_comm ex ey); reflexivity.
Qed.

(** [x * y == y * x], bit for bit. *)
Lemma mul_comm (x y : float) : (x * y)%float = (y * x)%float.
Proof.
  apply Prim2SF_inj. rewrite !FloatAxioms.mul_spec. apply SFmul_comm.
Qed.

(** [x < y] excludes [x >= y]. *)
Lemma lt_not_ge x y : lt x y = true -> ge x y = false.
Proof.
  unfold lt, ge. rewrite FloatAxioms.ltb_spec, FloatAxioms.leb_spec. unfold SFltb, SFleb.
  rewrite (SFcompare_swap (Prim2SF x) (Prim2SF y)).
  destruct (SFcompare (Prim2SF x) (Prim2SF y)) as [[]|]; simpl; congruence.
Qed.

(** [x >= y] excludes [x < y]. *)
Lemma ge_not_lt x y : ge x y = true -> lt x y = false.
Proof.
  intros H. destruct (lt x y) eqn:E; [|reflexivity].
  apply lt_not_ge in E. congruence.
Qed.

Lemma le_comparable c x : le c x = true -> comparable x.
Proof.
  unfold le, comparable. rewrite FloatAxioms.leb_spec. unfold SFleb. intros H E.
  rewrite E in H. destruct (Prim2SF c); discriminate.
Qed.

Lemma ge_comparable x c : ge x c = true -> comparable c.
Proof.
  unfold ge, comparable. rewrite FloatAxioms.leb_spec. unfold SFleb. intros H E.
  rewrite E in H. discriminate.
Qed.

(** On two floats that are not NaN, [not (x >= y)] is [x < y]. *)
Lemma not_ge_lt x y : comparable x -> comparable y -> ge x y = false -> lt x y = true.
Proof.
  unfold comparable, lt, ge. rewrite FloatAxioms.ltb_spec, FloatAxioms.leb_spec. unfold SFltb, SFleb.
  rewrite (SFcompare_swap (Prim2SF x) (Prim2SF y)). intros Hx Hy.
  destruct (Prim2SF x) as [[]|[]| |[] mx ex], (Prim2SF y) as [[]|[]| |[] my ey];
    try congruence; simpl; try congruence.
  all: destruct (ex ?= ey)%Z; simpl; try congruence.
  all: destruct (Pos.compare_cont Eq mx my); simpl; congruence.
Qed.

(** [x >= b] and [b >= a] give [x >= a]. *)
Lemma ge_trans x b a : ge x b = true -> ge b a = true -> ge x a = true.
Proof.
  unfold ge. rewrite !FloatAxioms.leb_spec. intros H1 H2. exact (SFleb_trans _ _ _ H2 H1).
Qed.

End PyFloatFacts.

(** ** The classifier *)

Module ClassifierProofs.
Import Py PyFloat PyFloatFacts ExampleAgent.

Lemma comparable_80 : comparable 80.
Proof. unfold comparable. vm_compute. discriminate. Qed.

Lemma comparable_60 : comparable 60.
Proof. unfold comparable. vm_compute. discriminate. Qed.

Lemma comparable_40 : comparable 40.
Proof. unfold comparable. vm_compute. discriminate. Qed.

(** Below a threshold, below every higher threshold. *)
Lemma below_lower x hi lo : ge hi lo = true -> ge x lo = false -> ge x hi = false.
Proof.
  intros Hhl Hlo. destruct (ge x hi) eqn:E; [|reflexivity].
  rewrite (ge_trans x hi lo E Hhl) in Hlo. discriminate.
Qed.

Lemma first_branch x mc :
  ge x 80 = true ->
  signal_of (generate_signal x mc) = "bullish"
  /\ confidence_of (generate_signal x mc) = x.
Proof. intros H. unfold generate_signal. rewrite H. split; reflexivity. Qed.

Lemma second_branch x mc :
  ge x 60 = true -> lt x 80 = true ->
  signal_of (generate_signal x mc) = "bullish"
  /\ confidence_of (generate_signal x mc) = x.
Proof.
  intros H60 H80. apply lt_not_ge in H80.
  unfold generate_signal. rewrite H80, H60. split; reflexivity.
Qed.

Lemma third_branch x mc :
  ge x 40 = true -> lt x 60 = true ->
  signal_of (generate_signal x mc) = "neutral"
  /\ confidence_of (generate_signal x mc) = 50%float.
Proof.
  intros H40 H60. apply lt_not_ge in H60.
  pose proof (below_lower x 80 60 eq_refl H60) as H80.
  unfold generate_signal. rewrite H80, H60, H40. split; reflexivity.
Qed.

Lemma fourth_branch x mc :
  lt x 40 = true ->
  signal_of (generate_signal x mc) = "bearish"
  /\ confidence_of (generate_signal x mc) = (100 - x)%float.
Proof.
  intros H40. apply lt_not_ge in H40.
  pose proof (below_lower x 60 40 eq_refl H40) as H60.
  pose proof (below_lower x 80 60 eq_refl H60) as H80.
  unfold generate_signal. rewrite H80, H60, H40. split; reflexivity.
Qed.

(** The four ranges split the floats that are not NaN. *)
Lemma one_tier x : comparable x -> count_true (tiers x) = 1%nat.
Proof.
  intros Hx. unfold tiers.
  destruct (ge x 80) eqn:E80.
  - rewrite (ge_not_lt _ _ E80).
    pose proof (ge_trans x 80 60 E80 eq_refl) as E60.
    pose proof (ge_trans x 60 40 E60 eq_refl) as E40.
    rewrite E60, E40, (ge_not_lt _ _ E60), (ge_not_lt _ _ E40). reflexivity.
  - rewrite (not_ge_lt x 80 Hx comparable_80 E80).
    destruct (ge x 60) eqn:E60.
    + pose proof (ge_trans x 60 40 E60 eq_refl) as E40.
      rewrite E40, (ge_not_lt _ _ E60), (ge_not_lt _ _ E40). reflexivity.
    + rewrite (not_ge_lt x 60 Hx comparable_60 E60).
      destruct (ge x 40) eqn:E40.
      * rewrite (ge_not_lt _ _ E40). reflexivity.
      * rewrite (not_ge_lt x 40 Hx comparable_40 E40). reflexivity.
Qed.

(** C1. For every comprehensive score in [0, 100], [generate_signal]
    answers by range: from 80 up, bullish with the score as confidence;
    in [60, 80), bullish with the score as confidence; in [40, 60),
    neutral with confidence 50; below 40, bearish with confidence
    [100 - score]; and the score lies in exactly one of the four ranges. *)
Theorem generate_signal_by_range (x : float) (market_cap : option float) :
  le 0 x = true -> le x 100 = true ->
  (ge x 80 = true ->
     signal_of (generate_signal x market_cap) = "bullish"
     /\ confidence_of (generate_signal x market_cap) = x)
  /\ (ge x 60 = true -> lt x 80 = true ->
     signal_of (generate_signal x market_cap) = "bullish"
     /\ confidence_of (generate_signal x market_cap) = x)
  /\ (ge x 40 = true -> lt x 60 = true ->
     signal_of (generate_signal x market_cap) = "neutral"
     /\ confidence_of (generate_signal x market_cap) = 50%float)
  /\ (lt x 40 = true ->
     signal_of (generate_signal x market_cap) = "bearish"
     /\ confidence_of (generate_signal x market_cap) = (100 - x)%float)
  /\ count_true (tiers x) = 1%nat.
Proof.
  intros H0 _. repeat split.
  - apply first_branch; assumption.
  - apply first_branch; assumption.
  - apply second_branch; assumption.
  - apply second_branch; assumption.
  - apply third_branch; assumption.
  - apply third_branch; assumption.
  - apply fourth_branch; assumption.
  - apply fourth_branch; assumption.
  - apply one_tier. exact (le_comparable 0 x H0).
Qed.

Lemma generate_signal_by_range_witness :
  signal_of (generate_signal 72.5 None) = "bullish"
  /\ confidence_of (generate_signal 72.5 None) = 72.5%float
  /\ count_true (tiers 72.5) = 1%nat.
Proof.
  destruct (generate_signal_by_range 72.5 None eq_refl eq_refl)
    as (_ & H & _ & _ & Hone).
  destruct (H eq_refl eq_refl) as [Hs Hc].
  repeat split; assumption.
Defined.

(** C9. [generate_signal] gives the same signal, confidence and reasoning
    whatever the market capitalisation it is handed. *)
Theorem generate_signal_ignores_market_cap (x : float) (mc mc' : option float) :
  generate_signal x mc = generate_signal x mc'.
Proof. reflexivity. Qed.

End ClassifierProofs.

(** ** The two rubric scorers *)

Module ScorerProofs.
Import Py PyFloat ExampleAgent.

(** Opens a scorer and splits on every test it makes. *)
Ltac scorer_cases :=
  unfold analyze_core_metrics, perform_advanced_analysis, when_truthy,
    roe_block, debt_block, revenue_block, earnings_block,
    weight_if, key_if, present, from_option;
  repeat match goal with
    | |- context [match ?o with Some _ => _ | None => _ end] => destruct o
    | |- context [if ?b then _ else _] => destruct b
    end.

Ltac reasoning_keys :=
  cbn [reasoning award remark raise_max analysis_init];
  rewrite ?dom_insert_L, ?dom_empty_L; set_solver.

Lemma core_bounds {L : Type} (metrics : option (list FinancialMetrics)) (li : L) :
  0 <= score (analyze_core_metrics metrics li)
    <= max_score (analyze_core_metrics metrics li).
Proof.
  destruct metrics as [[|latest rest]|]; [cbn; lia | | cbn; lia].
  destruct latest as [roe de rev earn].
  cbn [analyze_core_metrics return_on_equity debt_to_equity].
  scorer_cases; cbn; lia.
Qed.

Lemma advanced_bounds {L : Type} (metrics : option (list FinancialMetrics)) (li : L) :
  0 <= score (perform_advanced_analysis metrics li)
    <= max_score (perform_advanced_analysis metrics li).
Proof.
  destruct metrics as [[|current [|previous rest]]|]; [cbn; lia | cbn; lia | | cbn; lia].
  destruct current as [roe de rev earn].
  cbn [perform_advanced_analysis revenue_growth earnings_growth].
  scorer_cases; cbn; lia.
Qed.

(** C8. Whatever the input, the breakdown of [analyze_core_metrics] and
    the breakdown of [perform_advanced_analysis] satisfy
    [0 <= score <= max_score]. *)
Theorem score_within_max {L : Type} (metrics : option (list FinancialMetrics))
    (line_items : L) :
  (0 <= score (analyze_core_metrics metrics line_items)
     <= max_score (analyze_core_metrics metrics line_items))
  /\ (0 <= score (perform_advanced_analysis metrics line_items)
     <= max_score (perform_advanced_analysis metrics line_items)).
Proof. split; [apply core_bounds | apply advanced_bounds]. Qed.

(** C6. On [None] or on fewer than two snapshots,
    [perform_advanced_analysis] returns the empty breakdown: score 0,
    maximum 0, no reasoning. *)
Theorem advanced_needs_two_snapshots {L : Type}
    (metrics : option (list FinancialMetrics)) (line_items : L) :
  (snapshot_count metrics < 2)%nat ->
  perform_advanced_analysis metrics line_items
  = {| score := 0; max_score := 0; reasoning := ∅ |}.
Proof.
  destruct metrics as [[|current [|previous rest]]|]; cbn; try reflexivity.
  intros H. exfalso. lia.
Qed.

Lemma advanced_needs_two_snapshots_witness :
  perform_advanced_analysis
    (Some [ {| return_on_equity := Some 0.18%float;
               debt_to_equity := Some 0.25%float;
               revenue_growth := Some 0.3%float;
               earnings_growth := Some 0.3%float |} ]) tt
  = {| score := 0; max_score := 0; reasoning := ∅ |}.
Proof.
  apply advanced_needs_two_snapshots. cbn. lia.
Defined.

(** C10. With at least two snapshots, the breakdown of
    [perform_advanced_analysis] is fixed by the revenue growth and the
    earnings growth of the first one: the other fields, the second
    snapshot and the rest of the sequence do not matter. *)
Theorem advanced_reads_current_growth_only {L : Type}
    (current current' previous previous' : FinancialMetrics)
    (rest rest' : list FinancialMetrics) (line_items line_items' : L) :
  revenue_growth current = revenue_growth current' ->
  earnings_growth current = earnings_growth current' ->
  perform_advanced_analysis (Some (current :: previous :: rest)) line_items
  = perform_advanced_analysis (Some (current' :: previous' :: rest')) line_items'.
Proof.
  intros Hrev Hearn. unfold perform_advanced_analysis.
  rewrite Hrev, Hearn. reflexivity.
Qed.

Lemma advanced_reads_current_growth_only_witness :
  perform_advanced_analysis
    (Some [ {| return_on_equity := Some 0.18%float; debt_to_equity := None;
               revenue_growth := Some 0.12%float;
               earnings_growth := Some 0.3%float |};
            {| return_on_equity := None; debt_to_equity := None;
               revenue_growth := Some 0.5%float;
               earnings_growth := None |} ]) tt
  = perform_advanced_analysis
    (Some [ {| return_on_equity := None; debt_to_equity := Some 2%float;
               revenue_growth := Some 0.12%float;
               earnings_growth := Some 0.3%float |};
            {| return_on_equity := Some 0.01%float; debt_to_equity := None;
               revenue_growth := Some (-0.9)%float;
               earnings_growth := Some 0.7%float |};
            {| return_on_equity := None; debt_to_equity := None;
               revenue_growth := None; earnings_growth := None |} ]) tt.
Proof.
  apply advanced_reads_current_growth_only; reflexivity.
Defined.

(** *** Fields that are missing or zero *)

Section Skipping.
Context {L : Type}.
Variables (latest previous : FinancialMetrics) (rest : list FinancialMetrics).
Variable line_items : L.

Lemma core_max_score :
  max_score (analyze_core_metrics (Some (latest :: rest)) line_items)
  = weight_if (return_on_equity latest) 3 + weight_if (debt_to_equity latest) 2.
Proof.
  destruct latest as [roe de rev earn].
  cbn [analyze_core_metrics return_on_equity debt_to_equity].
  scorer_cases; reflexivity.
Qed.

Lemma core_reasoning_keys :
  dom (reasoning (analyze_core_metrics (Some (latest :: rest)) line_items))
  = key_if (return_on_equity latest) "roe" ∪ key_if (debt_to_equity latest) "debt".
Proof.
  destruct latest as [roe de rev earn].
  cbn [analyze_core_metrics return_on_equity debt_to_equity].
  scorer_cases; reasoning_keys.
Qed.

Lemma core_skips_return_on_equity :
  present (return_on_equity latest) = false ->
  analyze_core_metrics (Some (latest :: rest)) line_items
  = analyze_core_metrics (Some (without_return_on_equity latest :: rest)) line_items.
Proof.
  destruct latest as [[roe|] de rev earn]; cbn; [|reflexivity].
  intros ->. reflexivity.
Qed.

Lemma core_skips_debt_to_equity :
  present (debt_to_equity latest) = false ->
  analyze_core_metrics (Some (latest :: rest)) line_items
  = analyze_core_metrics (Some (without_debt_to_equity latest :: rest)) line_items.
Proof.
  destruct latest as [roe [de|] rev earn]; cbn; [|reflexivity].
  intros ->. reflexivity.
Qed.

Lemma advanced_max_score :
  max_score
    (perform_advanced_analysis (Some (latest :: previous :: rest)) line_items)
  = weight_if (revenue_growth latest) 3 + weight_if (earnings_growth latest) 2.
Proof.
  destruct latest as [roe de rev earn].
  cbn [perform_advanced_analysis revenue_growth earnings_growth].
  scorer_cases; reflexivity.
Qed.

Lemma advanced_reasoning_keys :
  dom (reasoning
         (perform_advanced_analysis (Some (latest :: previous :: rest)) line_items))
  = key_if (revenue_growth latest) "revenue_growth"
    ∪ key_if (earnings_growth latest) "earnings_growth".
Proof.
  destruct latest as [roe de rev earn].
  cbn [perform_advanced_analysis revenue_growth earnings_growth].
  scorer_cases; reasoning_keys.
Qed.

Lemma advanced_skips_revenue_growth :
  present (revenue_growth latest) = false ->
  perform_advanced_analysis (Some (latest :: previous :: rest)) line_items
  = perform_advanced_analysis
      (Some (without_revenue_growth latest :: previous :: rest)) line_items.
Proof.
  destruct latest as [roe de [rev|] earn]; cbn; [|reflexivity].
  intros ->. reflexivity.
Qed.

Lemma advanced_skips_earnings_growth :
  present (earnings_growth latest) = false ->
  perform_advanced_analysis (Some (latest :: previous :: rest)) line_items
  = perform_advanced_analysis
      (Some (without_earnings_growth latest :: previous :: rest)) line_items.
Proof.
  destruct latest as [roe de rev [earn|]]; cbn; [|reflexivity].
  intros ->. reflexivity.
Qed.

Lemma core_example :
  return_on_equity latest = None ->
  debt_to_equity latest = Some 0.2%float ->
  max_score (analyze_core_metrics (Some [latest]) line_items) = 2.
Proof.
  destruct latest as [roe de rev earn]. cbn. intros -> ->. reflexivity.
Qed.

End Skipping.

(** C3. A rubric field that is [None] or zero is skipped: the breakdown is
    the one of the snapshot without that field, so the field adds nothing
    to [score] or [max_score] and leaves no reasoning entry. A field that
    is present adds its full weight to [max_score] (3 for return on equity
    and revenue growth, 2 for debt to equity and earnings growth) and
    writes its one reasoning key, whichever tier it reaches. A snapshot
    with [return_on_equity = None] and [debt_to_equity = 0.2] has a core
    [max_score] of 2. *)
Theorem absent_fields_are_skipped {L : Type}
    (latest previous : FinancialMetrics) (rest : list FinancialMetrics)
    (line_items : L) :
  let core := analyze_core_metrics (Some (latest :: rest)) line_items in
  let advanced :=
    perform_advanced_analysis (Some (latest :: previous :: rest)) line_items in
  (max_score core
     = weight_if (return_on_equity latest) 3 + weight_if (debt_to_equity latest) 2
   /\ dom (reasoning core)
     = key_if (return_on_equity latest) "roe" ∪ key_if (debt_to_equity latest) "debt"
   /\ (present (return_on_equity latest) = false ->
      core = analyze_core_metrics
               (Some (without_return_on_equity latest :: rest)) line_items)
   /\ (present (debt_to_equity latest) = false ->
      core = analyze_core_metrics
               (Some (without_debt_to_equity latest :: rest)) line_items))
  /\ (max_score advanced
     = weight_if (revenue_growth latest) 3 + weight_if (earnings_growth latest) 2
   /\ dom (reasoning advanced)
     = key_if (revenue_growth latest) "revenue_growth"
       ∪ key_if (earnings_growth latest) "earnings_growth"
   /\ (present (revenue_growth latest) = false ->
      advanced = perform_advanced_analysis
                   (Some (without_revenue_growth latest :: previous :: rest))
                   line_items)
   /\ (present (earnings_growth latest) = false ->
      advanced = perform_advanced_analysis
                   (Some (without_earnings_growth latest :: previous :: rest))
                   line_items))
  /\ (return_on_equity latest = None ->
     debt_to_equity latest = Some 0.2%float ->
     max_score (analyze_core_metrics (Some [latest]) line_items) = 2).
Proof.
  cbv zeta. split; [|split].
  - split; [apply core_max_score|].
    split; [apply core_reasoning_keys|].
    split; [apply core_skips_return_on_equity | apply core_skips_debt_to_equity].
  - split; [apply advanced_max_score|].
    split; [apply advanced_reasoning_keys|].
    split; [apply advanced_skips_revenue_growth | apply advanced_skips_earnings_growth].
  - apply core_example.
Qed.

End ScorerProofs.

(** ** The scores the pipeline computes *)

Module PipelineProofs.
Import Py PyFloat ExampleAgent ScorerProofs.

Lemma score_by_totals (core advanced : analysis) :
  calculate_comprehensive_score core advanced
  = score_of_totals (score core + score advanced)
      (max_score core + max_score advanced).
Proof.
  unfold score_of_totals, calculate_comprehensive_score. cbn.
  rewrite !Z.add_0_r. reflexivity.
Qed.

Lemma reachable_totals check s m :
  on_reachable_totals check = true ->
  0 <= s <= m -> 1 <= m <= 10 -> check s m = true.
Proof.
  unfold on_reachable_totals. intros H Hs Hm.
  rewrite forallb_forall in H.
  assert (Hin : In m (seqZ 1 10)) by (apply list_elem_of_In, elem_of_seqZ; lia).
  specialize (H m Hin). rewrite forallb_forall in H.
  apply H. apply list_elem_of_In, elem_of_seqZ. lia.
Qed.

(** C5. [calculate_comprehensive_score] returns 0 when the two maxima add
    up to 0, without dividing; otherwise it returns 100 times the quotient
    of the summed scores by the summed maxima, the quotient and the product
    being those of binary64; on the totals the scorers can reach this is
    the exact percentage [100 * score / max] up to [2^-46]. It is a function
    of the two breakdowns. *)
Theorem calculate_comprehensive_score_formula (core advanced : analysis) :
  let total_score := score core + score advanced in
  let max_possible_score := max_score core + max_score advanced in
  (max_possible_score = 0 ->
     calculate_comprehensive_score core advanced = 0%float)
  /\ (max_possible_score <> 0 ->
     calculate_comprehensive_score core advanced
     = (100 * int_truediv total_score max_possible_score)%float)
  /\ (0 <= total_score <= max_possible_score ->
     1 <= max_possible_score <= 10 ->
     near_percentage total_score max_possible_score
       (calculate_comprehensive_score core advanced) = true).
Proof.
  cbv zeta. split; [|split].
  - intros H. unfold calculate_comprehensive_score. rewrite H. reflexivity.
  - intros H. unfold calculate_comprehensive_score.
    apply Z.eqb_neq in H. rewrite H. apply PyFloatFacts.mul_comm.
  - intros Hs Hm. rewrite score_by_totals.
    apply (reachable_totals (fun s m => near_percentage s m (score_of_totals s m)));
      [vm_compute; reflexivity | lia | lia].
Qed.

Lemma core_max_at_most_5 {L : Type} (metrics : option (list FinancialMetrics)) (li : L) :
  max_score (analyze_core_metrics metrics li) <= 5.
Proof.
  destruct metrics as [[|latest rest]|]; [cbn; lia | | cbn; lia].
  rewrite core_max_score. unfold weight_if.
  destruct (present (return_on_equity latest)), (present (debt_to_equity latest)); lia.
Qed.

Lemma advanced_max_at_most_5 {L : Type} (metrics : option (list FinancialMetrics))
    (li : L) :
  max_score (perform_advanced_analysis metrics li) <= 5.
Proof.
  destruct metrics as [[|current [|previous rest]]|]; [cbn; lia | cbn; lia | | cbn; lia].
  rewrite advanced_max_score. unfold weight_if.
  destruct (present (revenue_growth current)), (present (earnings_growth current)); lia.
Qed.

Section Pipeline.
Context {L : Type}.
Variable metrics : option (list FinancialMetrics).
Variable line_items : L.

Let core := analyze_core_metrics metrics line_items.
Let advanced := perform_advanced_analysis metrics line_items.

(** X19. For every input, the comprehensive score the pipeline hands to
    [generate_signal] is a float between 0 and 100, so never NaN. *)
Lemma pipeline_score_in_range :
  in_percent_range (calculate_comprehensive_score core advanced) = true.
Proof.
  rewrite score_by_totals.
  pose proof (core_bounds metrics line_items) as Hc.
  pose proof (advanced_bounds metrics line_items) as Ha.
  pose proof (core_max_at_most_5 metrics line_items) as Hc5.
  pose proof (advanced_max_at_most_5 metrics line_items) as Ha5.
  fold core in Hc, Hc5. fold advanced in Ha, Ha5.
  destruct (Z.eq_dec (max_score core + max_score advanced) 0) as [E|E].
  - rewrite E. reflexivity.
  - apply (reachable_totals (fun s m => in_percent_range (score_of_totals s m)));
      [vm_compute; reflexivity | lia | lia].
Qed.

(** When a field was scored, it is the exact percentage up to [2^-46]. *)
Lemma pipeline_score_near_exact :
  max_score core + max_score advanced <> 0 ->
  near_percentage (score core + score advanced)
    (max_score core + max_score advanced)
    (calculate_comprehensive_score core advanced) = true.
Proof.
  intros E. rewrite score_by_totals.
  pose proof (core_bounds metrics line_items) as Hc.
  pose proof (advanced_bounds metrics line_items) as Ha.
  pose proof (core_max_at_most_5 metrics line_items) as Hc5.
  pose proof (advanced_max_at_most_5 metrics line_items) as Ha5.
  fold core in Hc, Hc5. fold advanced in Ha, Ha5.
  apply (reachable_totals (fun s m => near_percentage s m (score_of_totals s m)));
    [vm_compute; reflexivity | lia | lia].
Qed.

End Pipeline.

(** Two of three points on return on equity alone: the quotient is rounded
    before it is scaled, and the score is the float just below
    [66.66666666666667]. *)
Example two_thirds :
  score_of_totals 2 3 = 66.66666666666666%float
  /\ (100 * 2 / 3)%float = 66.66666666666667%float
  /\ PyFloat.lt 66.66666666666666 66.66666666666667 = true.
Proof. repeat split; vm_compute; reflexivity. Qed.

(** The end-to-end example of the specification: one snapshot with a return
    on equity of 0.18 and a debt ratio of 0.25 scores 5 of 5, nothing on
    growth, 100 overall, and is bullish with confidence 100. *)
Example single_snapshot :
  ticker_entry
    (Some [ {| return_on_equity := Some 0.18%float;
               debt_to_equity := Some 0.25%float;
               revenue_growth := None;
               earnings_growth := None |} ])
    tt (Some 3e12%float)
  = VDict [("signal", VStr "bullish");
           ("confidence", VFloat 100);
           ("reasoning", VStr "종합 점수 100.0%로 매우 우수한 투자 대상");
           ("analysis_details",
            VDict [("core_score", VInt 5);
                   ("advanced_score", VInt 0);
                   ("comprehensive_score", VFloat 100)])].
Proof. vm_compute. reflexivity. Qed.

End PipelineProofs.

(** ** The review step *)

Module ReviewProofs.
Import Py ExampleAgent.

Section Fallback.
Context {State : Type}.
Variable call_llm : value -> State -> string -> outcome value.
Variable json_loads : value -> outcome value.
Variables (signals : value) (state : State) (agent_id : string).

Lemma fallback_on_raise e :
  is_Exception e = true ->
  call_llm signals state agent_id = Raises e ->
  validate_with_llm call_llm json_loads signals state agent_id = Returns signals.
Proof.
  intros He Hcall. unfold validate_with_llm. rewrite Hcall. cbn.
  rewrite He. reflexivity.
Qed.

Lemma fallback_on_parse_failure result e :
  is_Exception e = true ->
  call_llm signals state agent_id = Returns result ->
  json_loads result = Raises e ->
  validate_with_llm call_llm json_loads signals state agent_id = Returns signals.
Proof.
  intros He Hcall Hloads. unfold validate_with_llm. rewrite Hcall. cbn.
  rewrite Hloads. cbn. rewrite He. reflexivity.
Qed.

Lemma parsed_result_returned result parsed :
  call_llm signals state agent_id = Returns result ->
  json_loads result = Returns parsed ->
  validate_with_llm call_llm json_loads signals state agent_id = Returns parsed.
Proof.
  intros Hcall Hloads. unfold validate_with_llm. rewrite Hcall. cbn.
  rewrite Hloads. reflexivity.
Qed.

End Fallback.

(** C2. When the LLM call raises an error, or when [json.loads] refuses
    what the call returned, [validate_with_llm] returns the signals it was
    given, unchanged, and raises nothing. *)
Theorem validate_with_llm_falls_back {State : Type}
    (call_llm : value -> State -> string -> outcome value)
    (json_loads : value -> outcome value)
    (signals : value) (state : State) (agent_id : string) :
  (exists e, is_Exception e = true
             /\ call_llm signals state agent_id = Raises e)
  \/ (exists result e, is_Exception e = true
             /\ call_llm signals state agent_id = Returns result
             /\ json_loads result = Raises e) ->
  validate_with_llm call_llm json_loads signals state agent_id = Returns signals.
Proof.
  intros [(e & He & Hcall) | (result & e & He & Hcall & Hloads)].
  - eapply fallback_on_raise; eassumption.
  - eapply fallback_on_parse_failure; eassumption.
Qed.

Lemma validate_with_llm_falls_back_witness :
  validate_with_llm llm_down loads_empty_list sample_signals tt "example_agent"
  = Returns sample_signals.
Proof.
  apply validate_with_llm_falls_back.
  left. exists (Error "connection refused"). split; reflexivity.
Defined.

(** C4 as stated fails: the reviewer answers [[]], which is JSON and is
    not a mapping from ticker to signal, and [validate_with_llm] returns
    that list instead of the signals it was given. *)
Lemma malformed_json_is_not_rejected :
  ~ (forall (call_llm : value -> unit -> string -> outcome value)
            (json_loads : value -> outcome value)
            (signals : value) (agent_id : string) (result parsed : value),
       call_llm signals tt agent_id = Returns result ->
       json_loads result = Returns parsed ->
       has_expected_shape parsed = false ->
       validate_with_llm call_llm json_loads signals tt agent_id
       = Returns signals).
Proof.
  intros H.
  specialize (H llm_says_empty_list loads_empty_list sample_signals
                "example_agent" (VStr "[]") (VList [])
                eq_refl eq_refl eq_refl).
  discriminate H.
Qed.

(** C4, amended. Whatever [json.loads] accepts is the result of
    [validate_with_llm], whether or not it has the shape the prompt asks
    for; the signals are not looked at again. *)
Theorem validate_with_llm_returns_parsed {State : Type}
    (call_llm : value -> State -> string -> outcome value)
    (json_loads : value -> outcome value)
    (signals : value) (state : State) (agent_id : string)
    (result parsed : value) :
  call_llm signals state agent_id = Returns result ->
  json_loads result = Returns parsed ->
  validate_with_llm call_llm json_loads signals state agent_id = Returns parsed.
Proof. apply parsed_result_returned. Qed.

Lemma validate_with_llm_returns_parsed_witness :
  has_expected_shape (VList []) = false
  /\ validate_with_llm llm_says_empty_list loads_empty_list sample_signals tt
       "example_agent"
     = Returns (VList []).
Proof.
  split; [reflexivity|].
  apply (validate_with_llm_returns_parsed llm_says_empty_list loads_empty_list
           sample_signals tt "example_agent" (VStr "[]") (VList []));
    reflexivity.
Defined.

End ReviewProofs.

(** ** The model catalog *)

Module CatalogProofs.
Import Py LanguageModels.

(** Every credential name of the table is a non-empty string. *)
Lemma api_key_names_truthy provider api_key_name :
  PROVIDER_TO_API_KEY !! provider = Some api_key_name ->
  String.eqb api_key_name "" = false.
Proof.
  intros H. apply elem_of_list_to_map_2 in H.
  repeat (apply elem_of_cons in H as [H|H]; [injection H as -> ->; reflexivity|]).
  apply elem_of_nil in H. contradiction.
Qed.

(** The test of the loop is the credential predicate. *)
Lemma has_api_key_spec available model :
  has_api_key available model = bool_decide (credentialed available model).
Proof.
  destruct (decide (credentialed available model)) as [Hc|Hc].
  - rewrite (bool_decide_eq_true_2 _ Hc).
    unfold has_api_key, credentialed, provider_of in *.
    destruct (PROVIDER_TO_API_KEY !! default "" (model !! "provider"))
      as [k|] eqn:E; [|contradiction].
    rewrite (api_key_names_truthy _ _ E), (bool_decide_eq_true_2 _ Hc).
    reflexivity.
  - rewrite (bool_decide_eq_false_2 _ Hc).
    unfold has_api_key, credentialed, provider_of in *.
    destruct (PROVIDER_TO_API_KEY !! default "" (model !! "provider"))
      as [k|] eqn:E; [|reflexivity].
    rewrite (bool_decide_eq_false_2 _ Hc). apply andb_false_r.
Qed.

(** The loop with [append] keeps what it has and adds the models that
    pass, in order. *)
Lemma filter_loop available all_models acc :
  fold_left
    (fun filtered_models model =>
       if has_api_key available model
       then (filtered_models ++ [model])%list else filtered_models)
    all_models acc
  = (acc ++ filter (credentialed available) all_models)%list.
Proof.
  revert acc. induction all_models as [|model rest IH]; intros acc; cbn [fold_left].
  - rewrite filter_nil, app_nil_r. reflexivity.
  - rewrite IH, has_api_key_spec, filter_cons.
    destruct (decide (credentialed available model)) as [Hc|Hc].
    + rewrite (bool_decide_eq_true_2 _ Hc), <- app_assoc. reflexivity.
    + rewrite (bool_decide_eq_false_2 _ Hc). reflexivity.
Qed.

Lemma filter_cloud_models_spec available all_models :
  filter_cloud_models available all_models
  = filter (credentialed available) all_models.
Proof. unfold filter_cloud_models. apply filter_loop. Qed.

(** C7. When its three collaborators answer, [get_language_models]
    returns the catalog entries whose provider the table maps to a
    credential of the set, in catalog order, followed by the local models
    as they were probed, with no credential test on these; and an entry
    whose provider is not in the table is not among the filtered cloud
    models. *)
Theorem get_language_models_filters_by_credential
    (api_keys : list ApiKey) (all_models ollama_models : list (gmap string string)) :
  get_language_models (Returns api_keys) (Returns all_models) (Returns ollama_models)
  = Returns
      {| models :=
           (filter (credentialed (providers_of api_keys)) all_models
            ++ ollama_models)%list |}
  /\ (forall model,
        PROVIDER_TO_API_KEY !! provider_of model = None ->
        model ∉ filter_cloud_models (providers_of api_keys) all_models).
Proof.
  split.
  - cbn. rewrite filter_cloud_models_spec. reflexivity.
  - intros model Hnone. rewrite filter_cloud_models_spec.
    intros [Hc _]%list_elem_of_filter. unfold credentialed in Hc.
    rewrite Hnone in Hc. exact Hc.
Qed.

(** The catalog example of the specification: with the OpenAI key alone,
    the OpenAI model stays, the Groq model goes, the local model is
    appended. *)
Example sample_listing :
  get_language_models (Returns sample_keys) (Returns sample_catalog)
    (Returns sample_local)
  = Returns
      {| models :=
           [ {[ "provider" := "OpenAI"; "display_name" := "GPT-4o";
                "model_name" := "gpt-4o" ]};
             {[ "provider" := "Ollama"; "display_name" := "Gemma";
                "model_name" := "gemma3:4b" ]} ] |}.
Proof. vm_compute. reflexivity. Qed.

(** A collaborator that raises an error turns into an HTTP 500. *)
Example sample_failure :
  get_language_models (Raises (Error "database is locked"))
    (Returns sample_catalog) (Returns sample_local)
  = Raises (HTTPException 500 "Failed to retrieve models: database is locked").
Proof. reflexivity. Qed.

End CatalogProofs.

(** ** More on the order of floats *)

Module FloatOrder.
Import PyFloat PyFloatFacts.

Lemma SFltb_SFleb_trans a x y :
  SFltb a x = true -> SFleb x y = true -> SFltb a y = true.
Proof.
  unfold SFltb, SFleb.
  destruct a as [[]|[]| |[] ma ea], x as [[]|[]| |[] mx ex], y as [[]|[]| |[] my ey];
    simpl; try congruence.
  all: change (Pos.compare_cont Eq ?a ?b) with (Pos.compare a b).
  all: destruct (Z.compare_spec ea ex), (Z.compare_spec ex ey), (Z.compare_spec ea ey);
    try congruence; try lia.
  all: subst; destruct (Pos.compare_spec ma mx), (Pos.compare_spec mx my),
    (Pos.compare_spec ma my); simpl; try congruence; try lia.
Qed.

Lemma SFleb_SFltb_trans x y b :
  SFleb x y = true -> SFltb y b = true -> SFltb x b = true.
Proof.
  unfold SFltb, SFleb.
  destruct x as [[]|[]| |[] mx ex], y as [[]|[]| |[] my ey], b as [[]|[]| |[] mb eb];
    simpl; try congruence.
  all: change (Pos.compare_cont Eq ?a ?b) with (Pos.compare a b).
  all: destruct (Z.compare_spec ex ey), (Z.compare_spec ey eb), (Z.compare_spec ex eb);
    try congruence; try lia.
  all: subst; destruct (Pos.compare_spec mx my), (Pos.compare_spec my mb),
    (Pos.compare_spec mx mb); simpl; try congruence; try lia.
Qed.

(** [c < x] and [x <= y] give [c < y]. *)
Lemma gt_mono c x y : le x y = true -> gt x c = true -> gt y c = true.
Proof.
  unfold le, gt. rewrite FloatAxioms.leb_spec, !FloatAxioms.ltb_spec.
  intros H1 H2. exact (SFltb_SFleb_trans _ _ _ H2 H1).
Qed.

(** [x <= y] and [y < c] give [x < c]. *)
Lemma lt_anti c x y : le x y = true -> lt y c = true -> lt x c = true.
Proof.
  unfold le, lt. rewrite FloatAxioms.leb_spec, !FloatAxioms.ltb_spec.
  intros H1 H2. exact (SFleb_SFltb_trans _ _ _ H1 H2).
Qed.

(** A falsy float is a zero. *)
Lemma falsy_zero y : truthy y = false -> exists s, Prim2SF y = S754_zero s.
Proof.
  unfold truthy. rewrite FloatAxioms.eqb_spec. intros H. apply negb_false_iff in H.
  change (Prim2SF 0) with (S754_zero false) in H.
  destruct (Prim2SF y) as [s|[]| |[] m e]; try discriminate H. eauto.
Qed.

(** A zero is above no float that is at least zero. *)
Lemma falsy_not_gt c y : truthy y = false -> le 0 c = true -> gt y c = false.
Proof.
  intros [s Hy]%falsy_zero. unfold le, gt.
  rewrite FloatAxioms.leb_spec, FloatAxioms.ltb_spec, Hy.
  change (Prim2SF 0) with (S754_zero false).
  destruct s, (Prim2SF c) as [[]|[]| |[] m e]; unfold SFleb, SFltb; simpl; congruence.
Qed.

End FloatOrder.

(** ** The scorers and the order of their inputs *)

Module ScorerOrder.
Import Py PyFloat PyFloatFacts FloatOrder ExampleAgent ScorerProofs.

Ltac split_tests :=
  repeat match goal with
    | |- context [if ?b then _ else _] => destruct b eqn:?
    end.

Ltac order_clash :=
  match goal with
  | Hle : le ?x ?y = true, Hx : gt ?x ?c = true, Hy : gt ?y ?c = false |- _ =>
      rewrite (gt_mono c x y Hle Hx) in Hy; discriminate Hy
  | Hle : le ?x ?y = true, Hx : gt ?x ?c = true, Ty : truthy ?y = false |- _ =>
      let H := fresh in
      pose proof (gt_mono c x y Hle Hx) as H;
      rewrite (falsy_not_gt c y Ty eq_refl) in H; discriminate H
  | Hle : le ?x ?y = true, Hy : lt ?y ?c = true, Hx : lt ?x ?c = false |- _ =>
      rewrite (lt_anti c x y Hle Hy) in Hx; discriminate Hx
  end.

Lemma core_score_split {L : Type} latest rest (li : L) :
  score (analyze_core_metrics (Some (latest :: rest)) li)
  = field_points (return_on_equity latest) roe_block
    + field_points (debt_to_equity latest) debt_block.
Proof.
  destruct latest as [roe de rev earn].
  cbn [analyze_core_metrics return_on_equity debt_to_equity].
  unfold field_points. scorer_cases; reflexivity.
Qed.

Lemma advanced_score_split {L : Type} current previous rest (li : L) :
  score (perform_advanced_analysis (Some (current :: previous :: rest)) li)
  = field_points (revenue_growth current) revenue_block
    + field_points (earnings_growth current) earnings_block.
Proof.
  destruct current as [roe de rev earn].
  cbn [perform_advanced_analysis revenue_growth earnings_growth].
  unfold field_points. scorer_cases; reflexivity.
Qed.

Lemma roe_points_mono x y :
  le x y = true ->
  field_points (Some x) roe_block <= field_points (Some y) roe_block.
Proof.
  intros Hle. unfold field_points, when_truthy, roe_block.
  split_tests; cbn; try lia; order_clash.
Qed.

Lemma debt_points_anti x y :
  le x y = true -> truthy x = true ->
  field_points (Some y) debt_block <= field_points (Some x) debt_block.
Proof.
  intros Hle Tx. unfold field_points, when_truthy, debt_block. rewrite Tx.
  split_tests; cbn; try lia; order_clash.
Qed.

Lemma revenue_points_mono x y :
  le x y = true ->
  field_points (Some x) revenue_block <= field_points (Some y) revenue_block.
Proof.
  intros Hle. unfold field_points, when_truthy, revenue_block.
  split_tests; cbn; try lia; order_clash.
Qed.

Lemma earnings_points_mono x y :
  le x y = true ->
  field_points (Some x) earnings_block <= field_points (Some y) earnings_block.
Proof.
  intros Hle. unfold field_points, when_truthy, earnings_block.
  split_tests; cbn; try lia; order_clash.
Qed.

(** X1. The core score never falls when the return on equity rises and the
    rest of the snapshot stays, and never falls when a debt ratio other
    than zero gets smaller. (A ratio of zero is skipped, so it earns
    nothing.) *)
Theorem core_score_monotone {L : Type} (m m' : FinancialMetrics)
    (rest rest' : list FinancialMetrics) (li li' : L) (x y : float) :
  le x y = true ->
  (return_on_equity m = Some x -> return_on_equity m' = Some y ->
   debt_to_equity m = debt_to_equity m' ->
   score (analyze_core_metrics (Some (m :: rest)) li)
   <= score (analyze_core_metrics (Some (m' :: rest')) li'))
  /\ (debt_to_equity m = Some x -> debt_to_equity m' = Some y ->
      truthy x = true ->
      return_on_equity m = return_on_equity m' ->
      score (analyze_core_metrics (Some (m' :: rest')) li')
      <= score (analyze_core_metrics (Some (m :: rest)) li)).
Proof.
  intros Hle. split.
  - intros Hx Hy Hde. rewrite !core_score_split, Hx, Hy, Hde.
    pose proof (roe_points_mono x y Hle). lia.
  - intros Hx Hy Tx Hroe. rewrite !core_score_split, Hx, Hy, Hroe.
    pose proof (debt_points_anti x y Hle Tx). lia.
Qed.

Lemma core_score_monotone_witness :
  score (analyze_core_metrics
           (Some [ {| return_on_equity := Some 0.08%float;
                      debt_to_equity := Some 0.4%float;
                      revenue_growth := None; earnings_growth := None |} ]) tt)
  <= score (analyze_core_metrics
              (Some [ {| return_on_equity := Some 0.2%float;
                         debt_to_equity := Some 0.4%float;
                         revenue_growth := None; earnings_growth := None |} ]) tt).
Proof.
  apply (proj1 (core_score_monotone _ _ [] [] tt tt 0.08 0.2 eq_refl));
    reflexivity.
Defined.

(** X2. With two snapshots or more, the advanced score never falls when the
    revenue growth rises, nor when the earnings growth rises, the other
    field staying. *)
Theorem advanced_score_monotone {L : Type} (m m' previous previous' : FinancialMetrics)
    (rest rest' : list FinancialMetrics) (li li' : L) (x y : float) :
  le x y = true ->
  (revenue_growth m = Some x -> revenue_growth m' = Some y ->
   earnings_growth m = earnings_growth m' ->
   score (perform_advanced_analysis (Some (m :: previous :: rest)) li)
   <= score (perform_advanced_analysis (Some (m' :: previous' :: rest')) li'))
  /\ (earnings_growth m = Some x -> earnings_growth m' = Some y ->
      revenue_growth m = revenue_growth m' ->
      score (perform_advanced_analysis (Some (m :: previous :: rest)) li)
      <= score (perform_advanced_analysis (Some (m' :: previous' :: rest')) li')).
Proof.
  intros Hle. split.
  - intros Hx Hy He. rewrite !advanced_score_split, Hx, Hy, He.
    pose proof (revenue_points_mono x y Hle). lia.
  - intros Hx Hy Hr. rewrite !advanced_score_split, Hx, Hy, Hr.
    pose proof (earnings_points_mono x y Hle). lia.
Qed.

Lemma advanced_score_monotone_witness :
  score (perform_advanced_analysis
           (Some [ {| return_on_equity := None; debt_to_equity := None;
                      revenue_growth := Some 0.07%float;
                      earnings_growth := Some 0.3%float |};
                   {| return_on_equity := None; debt_to_equity := None;
                      revenue_growth := None; earnings_growth := None |} ]) tt)
  <= score (perform_advanced_analysis
              (Some [ {| return_on_equity := None; debt_to_equity := None;
                         revenue_growth := Some 0.25%float;
                         earnings_growth := Some 0.3%float |};
                      {| return_on_equity := None; debt_to_equity := None;
                         revenue_growth := None; earnings_growth := None |} ]) tt).
Proof.
  apply (proj1 (advanced_score_monotone _ _ _ _ [] [] tt tt 0.07 0.25 eq_refl));
    reflexivity.
Defined.

(** X3. The core breakdown reaches its maximum exactly when every field it
    scored sits in its top tier: a return on equity above 0.15 and a debt
    ratio below 0.3. *)
Theorem core_full_marks {L : Type} (latest : FinancialMetrics)
    (rest : list FinancialMetrics) (li : L) :
  score (analyze_core_metrics (Some (latest :: rest)) li)
  = max_score (analyze_core_metrics (Some (latest :: rest)) li)
  <-> (forall x, return_on_equity latest = Some x -> truthy x = true ->
         gt x 0.15 = true)
      /\ (forall x, debt_to_equity latest = Some x -> truthy x = true ->
         lt x 0.3 = true).
Proof.
  destruct latest as [roe de rev earn].
  cbn [analyze_core_metrics return_on_equity debt_to_equity].
  unfold when_truthy, roe_block, debt_block.
  destruct roe as [x|], de as [y|]; split_tests; cbn; (split; [intros Hs | intros [H1 H2]]).
  all: try (exfalso; lia).
  all: unfold gt, lt in *.
  all: try (split; intros z Hz Tz;
            first [ discriminate Hz
                  | injection Hz as Hz; subst z; congruence ]).
  all: try reflexivity.
  all: exfalso;
    repeat match goal with
      | H : forall z, Some ?x = Some z -> _ |- _ => specialize (H x eq_refl)
      end;
    repeat match goal with
      | H : ?a = true -> _, T : ?a = true |- _ => specialize (H T)
      end;
    congruence.
Qed.

End ScorerOrder.

(** ** The signal of a ticker *)

Module SignalProofs.
Import Py PyFloat PyFloatFacts ExampleAgent ScorerProofs PipelineProofs ScorerOrder.

(** The totals of the two breakdowns of one input are among those
    [on_reachable_totals] visits, or the maxima add up to 0. *)
Lemma totals_reachable {L : Type} (metrics : option (list FinancialMetrics)) (li : L) :
  let core := analyze_core_metrics metrics li in
  let advanced := perform_advanced_analysis metrics li in
  0 <= score core + score advanced <= max_score core + max_score advanced
  /\ 0 <= max_score core + max_score advanced <= 10.
Proof.
  cbv zeta.
  pose proof (core_bounds metrics li).
  pose proof (advanced_bounds metrics li).
  pose proof (core_max_at_most_5 metrics li).
  pose proof (advanced_max_at_most_5 metrics li).
  lia.
Qed.

(** A property checked on every reachable pair of totals, and on no maximum
    at all, holds of the signal of every input. *)
Lemma on_every_input {L : Type} (check : string * float * string -> Z -> Z -> bool)
    (metrics : option (list FinancialMetrics)) (li : L) (market_cap : option float) :
  on_reachable_totals
    (fun s m => check (generate_signal (score_of_totals s m) None) s m) = true ->
  (forall s, check (generate_signal 0 None) s 0 = true) ->
  check (deterministic_signal metrics li market_cap)
    (score (analyze_core_metrics metrics li)
     + score (perform_advanced_analysis metrics li))
    (max_score (analyze_core_metrics metrics li)
     + max_score (perform_advanced_analysis metrics li)) = true.
Proof.
  intros Hall Hzero. unfold deterministic_signal.
  change (generate_signal ?x market_cap) with (generate_signal x None).
  rewrite score_by_totals.
  destruct (totals_reachable metrics li) as [Hs Hm].
  set (s := score _ + score _) in *. set (m := max_score _ + max_score _) in *.
  destruct (Z.eq_dec m 0) as [E|E].
  - rewrite E. apply Hzero.
  - apply (reachable_totals
             (fun s m => check (generate_signal (score_of_totals s m) None) s m));
      [exact Hall | lia | lia].
Qed.

(** X4. For every input, the signal the pipeline computes through binary64
    is the one the exact percentage [100 * score / max] falls under:
    bullish from 60, neutral from 40, bearish below, and bearish when no
    field could be scored. Rounding never moves a ticker across a
    threshold. *)
Theorem signal_matches_exact_percentage {L : Type}
    (metrics : option (list FinancialMetrics)) (line_items : L)
    (market_cap : option float) :
  signal_of (deterministic_signal metrics line_items market_cap)
  = exact_signal
      (score (analyze_core_metrics metrics line_items)
       + score (perform_advanced_analysis metrics line_items))
      (max_score (analyze_core_metrics metrics line_items)
       + max_score (perform_advanced_analysis metrics line_items)).
Proof.
  apply String.eqb_eq.
  apply (on_every_input (fun r s m => String.eqb (signal_of r) (exact_signal s m))).
  - vm_compute. reflexivity.
  - intros s. reflexivity.
Qed.

(** X5. For every input, the confidence of the deterministic signal lies
    between 50 and 100. *)
Theorem confidence_between_50_and_100 {L : Type}
    (metrics : option (list FinancialMetrics)) (line_items : L)
    (market_cap : option float) :
  le 50 (confidence_of (deterministic_signal metrics line_items market_cap)) = true
  /\ le (confidence_of (deterministic_signal metrics line_items market_cap)) 100 = true.
Proof.
  apply andb_true_iff.
  apply (on_every_input
           (fun r _ _ => le 50 (confidence_of r) && le (confidence_of r) 100)).
  - vm_compute. reflexivity.
  - intros s. reflexivity.
Qed.

(** X6. With no snapshot, or with a latest snapshot whose four rubric fields
    are all missing or zero, the deterministic signal is bearish with
    confidence 100 and a reasoning that shows a score of 0.0%. *)
Theorem no_data_is_bearish {L : Type}
    (metrics : option (list FinancialMetrics)) (line_items : L)
    (market_cap : option float) :
  (forall latest rest, metrics = Some (latest :: rest) ->
     present (return_on_equity latest) = false
     /\ present (debt_to_equity latest) = false
     /\ present (revenue_growth latest) = false
     /\ present (earnings_growth latest) = false) ->
  deterministic_signal metrics line_items market_cap
  = ("bearish", 100%float, "종합 점수 0.0%로 투자에 주의가 필요한 대상").
Proof.
  intros Hnone. unfold deterministic_signal.
  assert (Hmax : max_score (analyze_core_metrics metrics line_items)
                 + max_score (perform_advanced_analysis metrics line_items) = 0).
  { destruct metrics as [[|latest rest]|]; [reflexivity| |reflexivity].
    destruct (Hnone latest rest eq_refl) as (H1 & H2 & H3 & H4).
    rewrite core_max_score. unfold weight_if. rewrite H1, H2.
    destruct rest as [|previous rest]; [reflexivity|].
    rewrite advanced_max_score. unfold weight_if. rewrite H3, H4. reflexivity. }
  unfold calculate_comprehensive_score. rewrite Hmax. reflexivity.
Qed.

Lemma no_data_is_bearish_witness :
  deterministic_signal
    (Some [ {| return_on_equity := None; debt_to_equity := Some 0%float;
               revenue_growth := Some (-0)%float; earnings_growth := None |} ])
    tt None
  = ("bearish", 100%float, "종합 점수 0.0%로 투자에 주의가 필요한 대상").
Proof.
  apply no_data_is_bearish.
  intros latest rest [= <- <-]. repeat split; reflexivity.
Defined.

(** X7. The classifier is monotone: a higher score never gets a lower
    signal, bearish being below neutral and neutral below bullish. *)
Theorem signal_monotone_in_score (x y : float) (mc mc' : option float) :
  le x y = true ->
  signal_rank (signal_of (generate_signal x mc))
  <= signal_rank (signal_of (generate_signal y mc')).
Proof.
  intros Hle. unfold generate_signal. split_tests; cbn; try lia.
  all: match goal with
       | H : le ?a ?b = true, Hx : ge ?a ?c = true, Hy : ge ?b ?c = false |- _ =>
           rewrite (ge_trans b a c H Hx) in Hy; discriminate Hy
       end.
Qed.

Lemma signal_monotone_in_score_witness :
  signal_rank (signal_of (generate_signal 39.9 None))
  <= signal_rank (signal_of (generate_signal 60 (Some 1%float))).
Proof. apply signal_monotone_in_score. reflexivity. Defined.

End SignalProofs.

(** ** The agent around the review step *)

Module AgentProofs.
Import Py PyFloat ExampleAgent ReviewProofs.

(** *** Dicts *)

Lemma dict_get_set_eq key v d : dict_get key (dict_set key v d) = Some v.
Proof.
  induction d as [|[k w] rest IH]; cbn.
  - rewrite String.eqb_refl. reflexivity.
  - destruct (String.eqb k key) eqn:E; cbn; rewrite E; [reflexivity | exact IH].
Qed.

Lemma dict_get_set_ne key key' v d :
  key <> key' -> dict_get key' (dict_set key v d) = dict_get key' d.
Proof.
  intros Hne. induction d as [|[k w] rest IH]; cbn.
  - apply String.eqb_neq in Hne. rewrite Hne. reflexivity.
  - destruct (String.eqb k key) eqn:E; cbn.
    + apply String.eqb_eq in E. subst k.
      apply String.eqb_neq in Hne. rewrite Hne. reflexivity.
    + rewrite IH. reflexivity.
Qed.

Lemma dict_keys_set key v d :
  dict_keys (dict_set key v d)
  = if decide (key ∈ dict_keys d) then dict_keys d else (dict_keys d ++ [key])%list.
Proof.
  unfold dict_keys. induction d as [|[k w] rest IH]; cbn.
  - rewrite decide_False; [reflexivity | apply not_elem_of_nil].
  - destruct (String.eqb k key) eqn:E; cbn.
    + apply String.eqb_eq in E. subst k.
      rewrite decide_True; [reflexivity | apply elem_of_cons; auto].
    + apply String.eqb_neq in E. rewrite IH.
      destruct (decide (key ∈ rest.*1)) as [Hin|Hin].
      * rewrite decide_True; [reflexivity | apply elem_of_cons; auto].
      * rewrite decide_False; [reflexivity|].
        intros [Heq|Hin']%elem_of_cons; [congruence | contradiction].
Qed.

Section Loop.
Context {L : Type}.
Variable get_financial_metrics : string -> outcome (option (list FinancialMetrics)).
Variable search_line_items : string -> outcome L.
Variable get_market_cap : string -> outcome (option float).

Local Abbreviation loop :=
  (ticker_loop get_financial_metrics search_line_items get_market_cap).
Local Abbreviation fetched :=
  (ExampleAgent.fetched get_financial_metrics search_line_items get_market_cap).

Lemma loop_step ticker rest acc sigs :
  loop (ticker :: rest) acc = Returns sigs ->
  exists entry, fetched ticker entry
                /\ loop rest (dict_set ticker entry acc) = Returns sigs.
Proof.
  cbn. destruct (get_financial_metrics ticker) as [m|e] eqn:E1; [|discriminate].
  cbn. destruct (search_line_items ticker) as [l|e] eqn:E2; [|discriminate].
  cbn. destruct (get_market_cap ticker) as [c|e] eqn:E3; [|discriminate].
  cbn. intros H. exists (ticker_entry m l c). split; [|exact H].
  exists m, l, c. auto.
Qed.

Lemma fetched_unique ticker entry entry' :
  fetched ticker entry -> fetched ticker entry' -> entry = entry'.
Proof.
  intros (m & l & c & H1 & H2 & H3 & ->) (m' & l' & c' & H1' & H2' & H3' & ->).
  congruence.
Qed.

Lemma loop_invariant tickers acc sigs :
  NoDup (dict_keys acc) ->
  loop tickers acc = Returns sigs ->
  NoDup (dict_keys sigs)
  /\ (forall t, t ∈ dict_keys sigs <-> t ∈ dict_keys acc \/ t ∈ tickers)
  /\ (forall t, t ∈ tickers -> exists entry, fetched t entry /\ dict_get t sigs = Some entry)
  /\ (forall t, t ∉ tickers -> dict_get t sigs = dict_get t acc).
Proof.
  revert acc. induction tickers as [|ticker rest IH]; intros acc Hnd Hloop.
  - cbn in Hloop. injection Hloop as <-. repeat split; auto.
    + intros [H|H]; [exact H | inversion H].
    + intros t H. inversion H.
  - apply loop_step in Hloop as (entry & Hf & Hloop).
    assert (Hnd' : NoDup (dict_keys (dict_set ticker entry acc))).
    { rewrite dict_keys_set. destruct (decide (ticker ∈ dict_keys acc)); [exact Hnd|].
      apply NoDup_app. repeat split; [exact Hnd | | apply NoDup_singleton].
      intros x Hx ->%list_elem_of_singleton. contradiction. }
    destruct (IH _ Hnd' Hloop) as (Hn & Hkeys & Hget & Hother).
    assert (Hk : forall t, t ∈ dict_keys (dict_set ticker entry acc)
                           <-> t ∈ dict_keys acc \/ t = ticker).
    { intros t. rewrite dict_keys_set.
      destruct (decide (ticker ∈ dict_keys acc)) as [Hin|Hin].
      - split; [auto | intros [H| ->]; assumption].
      - rewrite elem_of_app, list_elem_of_singleton. reflexivity. }
    split; [exact Hn|]. split; [|split].
    + intros t. rewrite Hkeys, Hk, elem_of_cons. tauto.
    + intros t [->|Hin]%elem_of_cons.
      * destruct (decide (ticker ∈ rest)) as [Hr|Hr].
        -- destruct (Hget _ Hr) as (entry' & Hf' & Hg). exists entry'. auto.
        -- exists entry. split; [exact Hf|].
           rewrite (Hother _ Hr). apply dict_get_set_eq.
      * apply Hget, Hin.
    + intros t Hnot. rewrite not_elem_of_cons in Hnot. destruct Hnot as [Hne Hnot].
      rewrite (Hother _ Hnot). apply dict_get_set_ne. congruence.
Qed.

Lemma loop_keys_in_order tickers acc sigs :
  NoDup (dict_keys acc ++ tickers) ->
  loop tickers acc = Returns sigs ->
  dict_keys sigs = (dict_keys acc ++ tickers)%list.
Proof.
  revert acc. induction tickers as [|ticker rest IH]; intros acc Hnd Hloop.
  - cbn in Hloop. injection Hloop as <-. rewrite app_nil_r. reflexivity.
  - apply loop_step in Hloop as (entry & Hf & Hloop).
    assert (Hfresh : ticker ∉ dict_keys acc).
    { apply NoDup_app in Hnd as (_ & Hd & _). intros Hin.
      apply (Hd _ Hin). apply elem_of_cons. auto. }
    assert (Hkeys : dict_keys (dict_set ticker entry acc)
                    = (dict_keys acc ++ [ticker])%list).
    { rewrite dict_keys_set, decide_False; [reflexivity | exact Hfresh]. }
    rewrite (IH (dict_set ticker entry acc)); [| |exact Hloop].
    + rewrite Hkeys, <- app_assoc. reflexivity.
    + rewrite Hkeys, <- app_assoc. exact Hnd.
Qed.

(** A failing data collaborator ends the loop with a raise. *)
Lemma loop_raises tickers acc ticker :
  ticker ∈ tickers ->
  (exists e, get_financial_metrics ticker = Raises e
             \/ search_line_items ticker = Raises e
             \/ get_market_cap ticker = Raises e) ->
  exists e, loop tickers acc = Raises e.
Proof.
  intros Hin Hfail. revert acc.
  induction tickers as [|t rest IH]; intros acc; [inversion Hin|].
  cbn.
  destruct (get_financial_metrics t) as [m|e1] eqn:E1; [|eauto].
  destruct (search_line_items t) as [l|e2] eqn:E2; [|eauto].
  destruct (get_market_cap t) as [c|e3] eqn:E3; [|eauto].
  cbn. apply IH.
  apply elem_of_cons in Hin as [->|Hin]; [|exact Hin].
  destruct Hfail as (e & [H|[H|H]]); congruence.
Qed.

End Loop.

(** X8. When the ticker loop of [example_agent] ends, the signals hold one
    entry per distinct ticker and no other key; the entry of a ticker is
    the one computed from its fetched data; and tickers without repetition
    keep their order. *)
Theorem ticker_loop_stores_every_ticker {L : Type}
    (get_financial_metrics : string -> outcome (option (list FinancialMetrics)))
    (search_line_items : string -> outcome L)
    (get_market_cap : string -> outcome (option float))
    (tickers : list string) (example_signals : list (string * value)) :
  ticker_loop get_financial_metrics search_line_items get_market_cap tickers []
  = Returns example_signals ->
  NoDup (dict_keys example_signals)
  /\ (forall t, t ∈ dict_keys example_signals <-> t ∈ tickers)
  /\ (forall t, t ∈ tickers ->
        exists entry,
          fetched get_financial_metrics search_line_items get_market_cap t entry
          /\ dict_get t example_signals = Some entry)
  /\ (NoDup tickers -> dict_keys example_signals = tickers).
Proof.
  intros Hloop.
  destruct (loop_invariant _ _ _ tickers [] example_signals (NoDup_nil_2) Hloop)
    as (Hnd & Hkeys & Hget & _).
  split; [exact Hnd|]. split; [|split; [exact Hget|]].
  - intros t. rewrite Hkeys. split; [intros [H|H]; [inversion H | exact H] | auto].
  - intros Hnodup.
    exact (loop_keys_in_order _ _ _ tickers [] example_signals Hnodup Hloop).
Qed.

Lemma ticker_loop_stores_every_ticker_witness :
  dict_keys
    [("AAPL", ticker_entry (Some sample_snapshots) tt (Some 3e12%float));
     ("MSFT", ticker_entry (Some sample_snapshots) tt (Some 3e12%float))]
  = ["AAPL"; "MSFT"].
Proof.
  refine (proj2 (proj2 (proj2
    (ticker_loop_stores_every_ticker sample_get_financial_metrics
       sample_search_line_items sample_get_market_cap ["AAPL"; "MSFT"]
       _ eq_refl))) _).
  apply NoDup_cons_2;
    [intros H%list_elem_of_singleton; discriminate H | apply NoDup_singleton].
Defined.

(** X9. When a data collaborator raises for one of the tickers,
    [example_agent] raises: the failure is not masked, whatever the
    reviewer would have answered. *)
Theorem example_agent_data_failure {State L : Type}
    (call_llm : value -> State -> string -> outcome value)
    (json_loads : value -> outcome value)
    (get_financial_metrics : string -> outcome (option (list FinancialMetrics)))
    (search_line_items : string -> outcome L)
    (get_market_cap : string -> outcome (option float))
    (tickers : list string) (state : State) (agent_id : string)
    (ticker : string) :
  ticker ∈ tickers ->
  (exists e, get_financial_metrics ticker = Raises e
             \/ search_line_items ticker = Raises e
             \/ get_market_cap ticker = Raises e) ->
  exists e,
    example_agent call_llm json_loads get_financial_metrics search_line_items
      get_market_cap tickers state agent_id
    = Raises e.
Proof.
  intros Hin Hfail.
  destruct (loop_raises get_financial_metrics search_line_items get_market_cap
              tickers [] ticker Hin Hfail) as [e He].
  exists e. unfold example_agent. rewrite He. reflexivity.
Qed.

Lemma example_agent_data_failure_witness :
  exists e,
    example_agent llm_says_empty_list loads_empty_list
      sample_get_financial_metrics sample_search_line_items sample_get_market_cap
      ["AAPL"; "FAIL"; "MSFT"] tt "example_agent"
    = Raises e.
Proof.
  apply (example_agent_data_failure _ _ _ _ _ _ _ _ "FAIL").
  - set_solver.
  - exists (Error "HTTP 502"). left. reflexivity.
Defined.

(** X10. With the data of every ticker fetched, a reviewer that raises an
    error leaves [example_agent] with the signals it computed itself. *)
Theorem example_agent_survives_reviewer {State L : Type}
    (call_llm : value -> State -> string -> outcome value)
    (json_loads : value -> outcome value)
    (get_financial_metrics : string -> outcome (option (list FinancialMetrics)))
    (search_line_items : string -> outcome L)
    (get_market_cap : string -> outcome (option float))
    (tickers : list string) (state : State) (agent_id : string)
    (example_signals : list (string * value)) (e : exn) :
  ticker_loop get_financial_metrics search_line_items get_market_cap tickers []
  = Returns example_signals ->
  is_Exception e = true ->
  call_llm (VDict example_signals) state agent_id = Raises e ->
  example_agent call_llm json_loads get_financial_metrics search_line_items
    get_market_cap tickers state agent_id
  = Returns (VDict example_signals).
Proof.
  intros Hloop He Hcall. unfold example_agent. rewrite Hloop. cbn.
  eapply fallback_on_raise; eassumption.
Qed.

Lemma example_agent_survives_reviewer_witness :
  example_agent llm_down loads_empty_list
    sample_get_financial_metrics sample_search_line_items sample_get_market_cap
    ["AAPL"] tt "example_agent"
  = Returns
      (VDict [("AAPL", ticker_entry (Some sample_snapshots) tt (Some 3e12%float))]).
Proof.
  apply (example_agent_survives_reviewer _ _ _ _ _ _ _ _ _
           (Error "connection refused")); reflexivity.
Defined.



End AgentProofs.

(** ** The providers route *)

Module ProvidersProofs.
Import Py LanguageModels CatalogProofs.

(** Appending to the group of a provider touches that group only. *)
Lemma append_model_fmap p entry gs :
  NoDup (name <$> gs) ->
  append_model p entry gs
  = (fun g => if String.eqb (name g) p
              then {| name := name g; group_models := (group_models g ++ [entry])%list |}
              else g) <$> gs.
Proof.
  induction gs as [|g rest IH]; intros Hnd; [reflexivity|].
  cbn in *. apply NoDup_cons in Hnd as [Hfresh Hnd].
  destruct (String.eqb (name g) p) eqn:E.
  - f_equal. apply String.eqb_eq in E.
    clear IH Hnd. induction rest as [|g' rest IH]; [reflexivity|].
    cbn in *. rewrite not_elem_of_cons in Hfresh. destruct Hfresh as [Hne Hfresh].
    assert (String.eqb (name g') p = false) as -> by (apply String.eqb_neq; congruence).
    f_equal. apply IH, Hfresh.
  - f_equal. apply IH, Hnd.
Qed.

Lemma has_group_spec p gs : has_group p gs = true <-> p ∈ name <$> gs.
Proof.
  unfold has_group. rewrite existsb_exists, list_elem_of_fmap.
  split.
  - intros (g & Hin & E). apply String.eqb_eq in E.
    exists g. split; [congruence | apply list_elem_of_In, Hin].
  - intros (g & -> & Hin). exists g.
    split; [apply list_elem_of_In, Hin | apply String.eqb_refl].
Qed.

Lemma group_step_well_formed gs model :
  well_formed model ->
  exists p, model !! "provider" = Some p
    /\ group_step gs model
       = Returns
           (append_model p (listed_entry model)
              (if has_group p gs then gs
               else (gs ++ [ {| name := p; group_models := [] |} ])%list)).
Proof.
  intros ([p Hp] & [d Hd] & [n Hn]). exists p. split; [exact Hp|].
  unfold group_step, getitem, listed_entry. rewrite Hp, Hd, Hn. reflexivity.
Qed.

Lemma group_step_malformed gs model :
  ~ well_formed model ->
  exists key,
    key ∈ ["provider"; "display_name"; "model_name"]
    /\ group_step gs model = Raises (Error ("'" ++ key ++ "'")).
Proof.
  intros Hbad. unfold group_step, getitem.
  destruct (model !! "provider") as [p|] eqn:Hp;
    [|exists "provider"; split; [set_solver | reflexivity]].
  destruct (model !! "display_name") as [d|] eqn:Hd;
    [|exists "display_name"; split; [set_solver | reflexivity]].
  destruct (model !! "model_name") as [n|] eqn:Hn;
    [|exists "model_name"; split; [set_solver | reflexivity]].
  exfalso. apply Hbad. unfold well_formed. rewrite Hp, Hd, Hn. eauto.
Qed.

Lemma models_of_snoc q seen model :
  models_of q (seen ++ [model])
  = (models_of q seen
     ++ if decide (model !! "provider" = Some q) then [listed_entry model] else [])%list.
Proof.
  unfold models_of. rewrite filter_app, fmap_app. f_equal.
  rewrite filter_cons, filter_nil.
  destruct (decide (model !! "provider" = Some q)); reflexivity.
Qed.

Lemma models_of_none q seen :
  (forall m, m ∈ seen -> m !! "provider" <> Some q) -> models_of q seen = [].
Proof.
  intros H. unfold models_of. induction seen as [|m rest IH]; [reflexivity|].
  rewrite filter_cons. destruct (decide (m !! "provider" = Some q)) as [E|E].
  - exfalso. apply (H m); [apply elem_of_cons; auto | exact E].
  - apply IH. intros m' Hin. apply H. apply elem_of_cons. auto.
Qed.

Lemma groups_of_step seen gs model p :
  groups_of seen gs ->
  model !! "provider" = Some p ->
  groups_of (seen ++ [model])
    (append_model p (listed_entry model)
       (if has_group p gs then gs
        else (gs ++ [ {| name := p; group_models := [] |} ])%list)).
Proof.
  intros (Hnd & Hnames & Hgroups) Hp.
  set (gs' := if has_group p gs then gs
              else (gs ++ [ {| name := p; group_models := [] |} ])%list).
  assert (Hinv : groups_of seen gs' /\ p ∈ name <$> gs'
                 \/ (NoDup (name <$> gs')
                     /\ (forall q, q ∈ name <$> gs' <->
                           (exists m, m ∈ seen /\ m !! "provider" = Some q) \/ q = p)
                     /\ (forall g, g ∈ gs' -> group_models g = models_of (name g) seen))).
  { subst gs'. destruct (has_group p gs) eqn:E.
    - left. apply has_group_spec in E. repeat split; auto; apply Hnames || apply Hgroups.
    - right. assert (Hfresh : p ∉ name <$> gs).
      { intros H. apply has_group_spec in H. congruence. }
      split; [|split].
      + rewrite fmap_app. apply NoDup_app. repeat split; [exact Hnd | | apply NoDup_singleton].
        intros x Hx ->%list_elem_of_singleton. contradiction.
      + intros q. rewrite fmap_app, elem_of_app, Hnames. cbn.
        rewrite list_elem_of_singleton. reflexivity.
      + intros g [Hin | ->%list_elem_of_singleton]%elem_of_app; [apply Hgroups, Hin|].
        cbn. symmetry. apply models_of_none. intros m Hm Hq.
        apply Hfresh, Hnames. eauto. }
  assert (Hnd' : NoDup (name <$> gs')) by (destruct Hinv as [[(?&_) _]|(?&_)]; assumption).
  assert (Hnames' : forall q, q ∈ name <$> gs' <->
                      (exists m, m ∈ seen /\ m !! "provider" = Some q) \/ q = p).
  { destruct Hinv as [[(_ & Hn & _) Hin]|(_ & Hn & _)]; [|exact Hn].
    intros q. rewrite Hn. split; [auto|]. intros [H| ->]; [exact H | apply Hn, Hin]. }
  assert (Hgroups' : forall g, g ∈ gs' -> group_models g = models_of (name g) seen).
  { destruct Hinv as [[(_ & _ & Hg) _]|(_ & _ & Hg)]; exact Hg. }
  clearbody gs'. rewrite (append_model_fmap _ _ _ Hnd').
  assert (Hsame : name <$> ((fun g => if String.eqb (name g) p
              then {| name := name g;
                      group_models := (group_models g ++ [listed_entry model])%list |}
              else g) <$> gs') = name <$> gs').
  { rewrite <- list_fmap_compose. apply list_fmap_ext. intros i g _. cbn.
    destruct (String.eqb (name g) p); reflexivity. }
  split; [|split].
  - rewrite Hsame. exact Hnd'.
  - intros q. rewrite Hsame, Hnames'. split.
    + intros [(m & Hm & Hq) | ->].
      * exists m. split; [apply elem_of_app; auto | exact Hq].
      * exists model. split; [apply elem_of_app; right; apply list_elem_of_singleton; reflexivity | exact Hp].
    + intros (m & [Hm | ->%list_elem_of_singleton]%elem_of_app & Hq).
      * left. eauto.
      * right. congruence.
  - intros g' (g & -> & Hg)%list_elem_of_fmap.
    rewrite models_of_snoc.
    destruct (String.eqb (name g) p) eqn:E; cbn.
    + apply String.eqb_eq in E. rewrite (Hgroups' g Hg), decide_True; [reflexivity | congruence].
    + apply String.eqb_neq in E. rewrite (Hgroups' g Hg), decide_False, app_nil_r;
        [reflexivity | congruence].
Qed.

Lemma group_loop_well_formed all_models seen gs :
  groups_of seen gs ->
  Forall well_formed all_models ->
  exists gs', group_loop all_models gs = Returns gs'
              /\ groups_of (seen ++ all_models) gs'.
Proof.
  revert seen gs. induction all_models as [|model rest IH]; intros seen gs Hinv Hwf.
  - exists gs. rewrite app_nil_r. auto.
  - apply Forall_cons in Hwf as [Hm Hrest].
    destruct (group_step_well_formed gs model Hm) as (p & Hp & Hstep).
    cbn. rewrite Hstep. cbn.
    destruct (IH (seen ++ [model])%list _ (groups_of_step seen gs model p Hinv Hp) Hrest)
      as (gs' & Hloop & Hinv').
    exists gs'. rewrite <- app_assoc in Hinv'. auto.
Qed.

Lemma group_loop_malformed all_models seen gs :
  groups_of seen gs ->
  ~ Forall well_formed all_models ->
  exists key,
    key ∈ ["provider"; "display_name"; "model_name"]
    /\ group_loop all_models gs = Raises (Error ("'" ++ key ++ "'")).
Proof.
  revert seen gs. induction all_models as [|model rest IH]; intros seen gs Hinv Hbad.
  - exfalso. apply Hbad. constructor.
  - destruct (decide (is_Some (model !! "provider")
                      /\ is_Some (model !! "display_name")
                      /\ is_Some (model !! "model_name"))) as [Hm|Hm].
    + destruct (group_step_well_formed gs model Hm) as (p & Hp & Hstep).
      cbn. rewrite Hstep. cbn.
      apply (IH (seen ++ [model])%list); [apply groups_of_step; assumption|].
      intros Hrest. apply Hbad. constructor; assumption.
    + destruct (group_step_malformed gs model Hm) as (key & Hkey & Hstep).
      exists key. split; [exact Hkey|]. cbn. rewrite Hstep. reflexivity.
Qed.

Lemma groups_of_nil : groups_of [] [].
Proof.
  split; [constructor|]. split.
  - intros p. split; [intros H; inversion H | intros (m & H & _); inversion H].
  - intros g H. inversion H.
Qed.

(** X12. On a catalog whose models all carry [provider], [display_name] and
    [model_name], the providers route succeeds and lists one group per
    provider that occurs, each holding the models of that provider, in
    catalog order, as [display_name] and [model_name]. *)
Theorem providers_route_groups_by_provider (all_models : list (gmap string string)) :
  Forall well_formed all_models ->
  exists providers,
    get_language_model_providers (Returns all_models) = Returns providers
    /\ NoDup (name <$> providers)
    /\ (forall p, p ∈ name <$> providers
                 <-> exists m, m ∈ all_models /\ m !! "provider" = Some p)
    /\ (forall g, g ∈ providers -> group_models g = models_of (name g) all_models).
Proof.
  intros Hwf.
  destruct (group_loop_well_formed all_models [] [] groups_of_nil Hwf)
    as (providers & Hloop & Hinv).
  exists providers. split; [|exact Hinv].
  unfold get_language_model_providers. cbn. rewrite Hloop. reflexivity.
Qed.

Lemma providers_route_groups_by_provider_witness :
  exists providers,
    get_language_model_providers (Returns sample_catalog) = Returns providers
    /\ NoDup (name <$> providers)
    /\ (forall p, p ∈ name <$> providers
                 <-> exists m, m ∈ sample_catalog /\ m !! "provider" = Some p)
    /\ (forall g, g ∈ providers -> group_models g = models_of (name g) sample_catalog).
Proof.
  apply providers_route_groups_by_provider.
  repeat constructor; vm_compute; eauto.
Defined.

(** X13. When a model of the catalog lacks one of the three keys, the
    providers route answers HTTP 500 and names a missing key, as the
    [KeyError] prints it. *)
Theorem providers_route_missing_key (all_models : list (gmap string string)) :
  ~ Forall well_formed all_models ->
  exists key,
    key ∈ ["provider"; "display_name"; "model_name"]
    /\ get_language_model_providers (Returns all_models)
       = Raises (HTTPException 500
                   ("Failed to retrieve providers: '" ++ key ++ "'")).
Proof.
  intros Hbad.
  destruct (group_loop_malformed all_models [] [] groups_of_nil Hbad)
    as (key & Hkey & Hloop).
  exists key. split; [exact Hkey|].
  unfold get_language_model_providers. cbn. rewrite Hloop. reflexivity.
Qed.

Lemma providers_route_missing_key_witness :
  exists key,
    key ∈ ["provider"; "display_name"; "model_name"]
    /\ get_language_model_providers (Returns sample_broken_catalog)
       = Raises (HTTPException 500
                   ("Failed to retrieve providers: '" ++ key ++ "'")).
Proof.
  apply providers_route_missing_key.
  intros H. apply Forall_cons in H as [_ H]. apply Forall_cons in H as [(_ & [d Hd] & _) _].
  vm_compute in Hd. discriminate Hd.
Defined.

End ProvidersProofs.

(** ** More on the two routes *)

Module RoutesProofs.
Import Py LanguageModels CatalogProofs ProvidersProofs.


Lemma credentialed_mono available available' model :
  available ⊆ available' ->
  credentialed available model -> credentialed available' model.
Proof.
  unfold credentialed. intros Hsub.
  destruct (PROVIDER_TO_API_KEY !! provider_of model); [|auto].
  apply Hsub.
Qed.

Lemma filter_sublist available available' (all_models : list (gmap string string)) :
  available ⊆ available' ->
  sublist (filter (credentialed available) all_models)
          (filter (credentialed available') all_models).
Proof.
  intros Hsub. induction all_models as [|m rest IH]; [constructor|].
  rewrite !filter_cons.
  destruct (decide (credentialed available m)) as [Hc|Hc].
  - rewrite decide_True by (eapply credentialed_mono; eassumption).
    constructor. exact IH.
  - destruct (decide (credentialed available' m)); [constructor|]; exact IH.
Qed.

Lemma providers_of_mono (api_keys api_keys' : list ApiKey) :
  api_keys ⊆ api_keys' -> providers_of api_keys ⊆ providers_of api_keys'.
Proof.
  unfold providers_of. intros Hsub k.
  rewrite !elem_of_list_to_set, !list_elem_of_fmap.
  intros (key & -> & Hin). exists key. split; [reflexivity | apply Hsub, Hin].
Qed.

Lemma route_returns api_keys all_models ollama_models :
  get_language_models (Returns api_keys) (Returns all_models) (Returns ollama_models)
  = Returns
      {| models :=
           (filter (credentialed (providers_of api_keys)) all_models
            ++ ollama_models)%list |}.
Proof. cbn. rewrite filter_cloud_models_spec. reflexivity. Qed.

(** X14. Storing more keys never removes a model from the listing: the
    models returned with fewer keys are a sublist of those returned with
    more, the catalog and the local models being the same. *)
Theorem more_keys_more_models (api_keys api_keys' : list ApiKey)
    (all_models ollama_models : list (gmap string string)) (r r' : response) :
  api_keys ⊆ api_keys' ->
  get_language_models (Returns api_keys) (Returns all_models) (Returns ollama_models)
  = Returns r ->
  get_language_models (Returns api_keys') (Returns all_models) (Returns ollama_models)
  = Returns r' ->
  sublist (models r) (models r').
Proof.
  intros Hsub. rewrite !route_returns. intros [= <-] [= <-]. cbn.
  apply sublist_app; [|reflexivity].
  apply filter_sublist, providers_of_mono, Hsub.
Qed.

Lemma more_keys_more_models_witness :
  sublist
    (models {| models := sample_local |})
    (models {| models := (filter (credentialed (providers_of sample_keys)) sample_catalog
                          ++ sample_local)%list |}).
Proof.
  apply (more_keys_more_models sample_other_keys (sample_other_keys ++ sample_keys)
           sample_catalog sample_local).
  - intros k Hk. apply elem_of_app. auto.
  - vm_compute. reflexivity.
  - vm_compute. reflexivity.
Defined.

(** X15. When no stored key is a credential name of the table (none stored,
    or keys of other services only), the listing is exactly the local
    models. *)
Theorem no_listed_key_only_local_models (api_keys : list ApiKey)
    (all_models ollama_models : list (gmap string string)) :
  (forall key p, key ∈ api_keys -> PROVIDER_TO_API_KEY !! p <> Some (provider key)) ->
  get_language_models (Returns api_keys) (Returns all_models) (Returns ollama_models)
  = Returns {| models := ollama_models |}.
Proof.
  intros Hnone. rewrite route_returns. do 2 f_equal.
  induction all_models as [|m rest IH]; [reflexivity|].
  rewrite filter_cons, decide_False; [exact IH|].
  unfold credentialed.
  destruct (PROVIDER_TO_API_KEY !! provider_of m) as [k|] eqn:E; [|auto].
  unfold providers_of. rewrite elem_of_list_to_set, list_elem_of_fmap.
  intros (key & -> & Hin). exact (Hnone key _ Hin E).
Qed.

Lemma no_listed_key_only_local_models_witness :
  get_language_models (Returns sample_other_keys) (Returns sample_catalog)
    (Returns sample_local)
  = Returns {| models := sample_local |}.
Proof.
  apply no_listed_key_only_local_models.
  intros key p ->%list_elem_of_singleton H.
  apply elem_of_list_to_map_2 in H.
  repeat (apply elem_of_cons in H as [H|H]; [discriminate H|]).
  apply elem_of_nil in H. contradiction.
Defined.



(** X17. The only error [get_language_models] raises is HTTP 500 with the
    text of the error one of its three collaborators raised; and the
    providers route turns an error of [get_models_list] into HTTP 500 in
    the same way. *)
Theorem routes_raise_http_500 :
  (forall get_all_api_keys get_models_list get_available_models e,
     get_language_models get_all_api_keys get_models_list get_available_models
     = Raises e ->
     is_Exception e = true ->
     exists cause,
       (get_all_api_keys = Raises cause \/ get_models_list = Raises cause
        \/ get_available_models = Raises cause)
       /\ e = HTTPException 500 ("Failed to retrieve models: " ++ str cause))
  /\ (forall get_models_list cause,
        get_models_list = Raises cause -> is_Exception cause = true ->
        get_language_model_providers get_models_list
        = Raises (HTTPException 500 ("Failed to retrieve providers: " ++ str cause))).
Proof.
  split.
  - intros [keys|e1] [ms|e2] [os|e3] e; cbn;
      try discriminate;
      repeat match goal with
        | |- context [if is_Exception ?c then _ else _] =>
            destruct (is_Exception c) eqn:?
        end;
      intros [= <-] He; try congruence; eauto 6.
  - intros gm cause -> Hc. cbn. rewrite Hc. reflexivity.
Qed.

(** X18. The two routes agree: when the providers route answers, every
    cloud model the filtered listing keeps is listed there under its own
    provider. *)
Theorem cloud_models_are_listed (available : gset string)
    (all_models : list (gmap string string)) (providers : list provider_group)
    (m : gmap string string) :
  get_language_model_providers (Returns all_models) = Returns providers ->
  m ∈ filter_cloud_models available all_models ->
  exists g, g ∈ providers
            /\ name g = provider_of m
            /\ listed_entry m ∈ group_models g.
Proof.
  intros Hroute Hm.
  destruct (decide (Forall (fun model =>
              is_Some (model !! "provider") /\ is_Some (model !! "display_name")
              /\ is_Some (model !! "model_name")) all_models)) as [Hwf|Hbad].
  - destruct (group_loop_well_formed all_models [] [] groups_of_nil Hwf)
      as (gs & Hloop & (Hnd & Hnames & Hgroups)).
    unfold get_language_model_providers in Hroute. cbn in Hroute.
    rewrite Hloop in Hroute. cbn in Hroute. injection Hroute as <-.
    rewrite filter_cloud_models_spec in Hm.
    apply list_elem_of_filter in Hm as [Hc Hin].
    rewrite Forall_forall in Hwf. destruct (Hwf m Hin) as ([p Hp] & _).
    assert (Hpin : p ∈ name <$> gs) by (apply Hnames; eauto).
    apply list_elem_of_fmap in Hpin as (g & -> & Hg).
    exists g. split; [exact Hg|]. split.
    + unfold provider_of. rewrite Hp. reflexivity.
    + rewrite (Hgroups g Hg). unfold models_of.
      apply list_elem_of_fmap. exists m. split; [reflexivity|].
      apply list_elem_of_filter. auto.
  - destruct (group_loop_malformed all_models [] [] groups_of_nil Hbad)
      as (key & _ & Hloop).
    unfold get_language_model_providers in Hroute. cbn in Hroute.
    rewrite Hloop in Hroute. discriminate Hroute.
Qed.

Lemma cloud_models_are_listed_witness :
  exists g,
    g ∈ [ {| name := "OpenAI";
             group_models :=
               [ {[ "display_name" := "GPT-4o"; "model_name" := "gpt-4o" ]} ] |};
          {| name := "Groq";
             group_models :=
               [ {[ "display_name" := "Llama 3"; "model_name" := "llama3-70b" ]} ] |} ]
    /\ name g
       = provider_of
           {[ "provider" := "OpenAI"; "display_name" := "GPT-4o";
              "model_name" := "gpt-4o" ]}
    /\ listed_entry
         {[ "provider" := "OpenAI"; "display_name" := "GPT-4o";
            "model_name" := "gpt-4o" ]}
       ∈ group_models g.
Proof.
  apply (cloud_models_are_listed {["OPENAI_API_KEY"]} sample_catalog).
  - vm_compute. reflexivity.
  - replace (filter_cloud_models {["OPENAI_API_KEY"]} sample_catalog)
      with [ ({[ "provider" := "OpenAI"; "display_name" := "GPT-4o";
                 "model_name" := "gpt-4o" ]} : gmap string string) ]
      by (vm_compute; reflexivity).
    apply list_elem_of_here.
Defined.

End RoutesProofs.

(** ** Edges of the core scorer *)

Module EdgeProofs.
Import Py PyFloat PyFloatFacts ExampleAgent ScorerProofs.


(** X20. [analyze_core_metrics] reads the return on equity and the debt
    ratio of the first snapshot and nothing else: older snapshots, the
    growth fields and the line items do not matter. *)
Theorem core_reads_latest_ratios_only {L L' : Type}
    (latest latest' : FinancialMetrics) (rest rest' : list FinancialMetrics)
    (line_items : L) (line_items' : L') :
  return_on_equity latest = return_on_equity latest' ->
  debt_to_equity latest = debt_to_equity latest' ->
  analyze_core_metrics (Some (latest :: rest)) line_items
  = analyze_core_metrics (Some (latest' :: rest')) line_items'.
Proof.
  intros Hroe Hde. unfold analyze_core_metrics. rewrite Hroe, Hde. reflexivity.
Qed.

Lemma core_reads_latest_ratios_only_witness :
  analyze_core_metrics
    (Some [ {| return_on_equity := Some 0.12%float; debt_to_equity := None;
               revenue_growth := Some 0.5%float; earnings_growth := None |} ]) tt
  = analyze_core_metrics
      (Some [ {| return_on_equity := Some 0.12%float; debt_to_equity := None;
                 revenue_growth := None; earnings_growth := Some 0.1%float |};
              {| return_on_equity := Some 0.9%float; debt_to_equity := Some 3%float;
                 revenue_growth := None; earnings_growth := None |} ]) "10-K".
Proof. apply core_reads_latest_ratios_only; reflexivity. Defined.



End EdgeProofs.
